(** * fspy2vmd: the fSpy -> three.js -> VMD camera converter

    A shallow embedding of [FspyVmdConverter] (applyFSpyToCamera, exportVmd,
    writeCameraVmd, matrixFromFSpyRows) and of the parts of the ECMAScript
    host and of three.js that it calls, followed by the properties of the
    converter.

    JavaScript numbers are IEEE 754 binary64 values: they are modelled by
    Rocq's primitive floats, whose operations are the same binary64
    operations.  Byte buffers are lists of integers in [0, 256). *)

From Stdlib Require Import String Ascii ZArith List Lia Bool Floats.
Import ListNotations.

Set Warnings "-inexact-float".

Local Open Scope Z_scope.

(** * The ECMAScript host *)

Module JS.

(** The Number type. *)
Definition number := float.

(** [a ?? b] on an optional value: [None] stands for undefined / null. *)
Definition nullish {A : Type} (o : option A) (d : A) : A :=
  match o with
  | Some v => v
  | None => d
  end.

Definition Math_PI : number := 0x1.921fb54442d18p+1%float.

(** The mathematical integer obtained by truncating a finite Number toward
    zero; NaN, the zeros and the infinities give 0 (ToIntegerOrInfinity
    followed by the "not finite -> +0" step of the modular conversions). *)
Definition truncate (x : number) : Z :=
  match Prim2SF x with
  | S754_finite s m e =>
      let mag := Z.shiftl (Zpos m) e in
      if s then - mag else mag
  | _ => 0
  end.

(** ToUint32 and ToUint8. *)
Definition ToUint32 (x : number) : Z := truncate x mod 2 ^ 32.
Definition ToUint8 (x : number) : Z := truncate x mod 2 ^ 8.

(** The Number whose value is the integer [n] (exact for |n| < 2^53). *)
Definition of_Z (n : Z) : number := SF2Prim (binary_normalize prec emax n 0 false).

(** Math.round: the nearest integral Number, ties toward +infinity; an
    argument in [-0.5, 0) gives -0. *)
Definition Math_round (x : number) : number :=
  match Prim2SF x with
  | S754_finite s m e =>
      if 0 <=? e then x
      else
        let sm := if s then Zneg m else Zpos m in
        let k := - e in
        let n := Z.shiftr (2 * sm + 2 ^ k) (k + 1) in
        SF2Prim (binary_normalize prec emax n 0 s)
  | _ => x
  end.

(** The binary32 value nearest to a Number (round to nearest, ties to
    even), as DataView.prototype.setFloat32 computes it. *)
Definition to_binary32 (x : number) : spec_float :=
  match Prim2SF x with
  | S754_finite s m e => binary_normalize 24 128 (if s then Zneg m else Zpos m) e s
  | other => other
  end.

(** The 32-bit pattern of a binary32 value: sign, biased exponent,
    fraction.  NaN is written as the canonical quiet NaN. *)
Definition binary32_bits (f : spec_float) : Z :=
  let sign (s : bool) := if s then 2 ^ 31 else 0 in
  match f with
  | S754_zero s => sign s
  | S754_infinity s => sign s + 255 * 2 ^ 23
  | S754_nan => 255 * 2 ^ 23 + 2 ^ 22
  | S754_finite s m e =>
      if Zpos m <? 2 ^ 23 then sign s + Zpos m
      else sign s + (e + 150) * 2 ^ 23 + (Zpos m - 2 ^ 23)
  end.

(** The little-endian bytes of an unsigned integer, [n] of them. *)
Fixpoint le_bytes (n : nat) (v : Z) : list Z :=
  match n with
  | O => []
  | S n' => v mod 256 :: le_bytes n' (v / 256)
  end.

(** Reading them back (DataView.prototype.getUint32 with littleEndian). *)
Fixpoint le_value (bs : list Z) : Z :=
  match bs with
  | [] => 0
  | b :: bs' => b + 256 * le_value bs'
  end.

(** [new Uint8Array(n)]: [n] zero bytes. *)
Definition Uint8Array_new (n : nat) : list Z := repeat 0 n.

(** [dst.set(src, off)]: copies [src] into [dst] at [off]; a RangeError
    ([None]) when [src] does not fit. *)
Definition TypedArray_set (dst src : list Z) (off : nat) : option (list Z) :=
  if (off + length src <=? length dst)%nat
  then Some (firstn off dst ++ src ++ skipn (off + length src) dst)
  else None.

(** [bytes.slice(0, n)]. *)
Definition slice0 (bytes : list Z) (n : nat) : list Z := firstn n bytes.

(** [bytes[i] = v] on a typed array: a store out of range is ignored. *)
Fixpoint store (bytes : list Z) (i : nat) (v : Z) : list Z :=
  match bytes, i with
  | [], _ => []
  | _ :: t, O => v :: t
  | h :: t, S i' => h :: store t i' v
  end.

End JS.

Import JS.

(** * Exceptions and the state-and-exception monad

    A method of a JavaScript object reads and writes the object's fields and
    may throw; what it wrote before it threw stays written.  A computation
    over a state [S] therefore returns its outcome together with the state it
    leaves behind, also when the outcome is an exception. *)

(** types.ts: FSPY_VMD_CONVERTER_ERROR_CODE *)
Inductive FspyVmdConverterErrorCode :=
| FSPY_DATA_NOT_SET
| INVALID_CAMERA_TRANSFORM_ROWS_SIZE
| INVALID_CAMERA_TRANSFORM_VALUE.

(** What can be thrown: the converter's typed error (code and message), or
    the host's RangeError for a write outside a buffer. *)
Inductive Exception :=
| FspyVmdConverterError (code : FspyVmdConverterErrorCode) (message : string)
| RangeError.

Definition Result (A : Type) : Type := Exception + A.

Definition St (S A : Type) : Type := S -> Result A * S.

Definition ret {S A} (a : A) : St S A := fun s => (inr a, s).

Definition throw {S A} (e : Exception) : St S A := fun s => (inl e, s).

Definition bind {S A B} (m : St S A) (k : A -> St S B) : St S B :=
  fun s =>
    match m s with
    | (inr a, s') => k a s'
    | (inl e, s') => (inl e, s')
    end.

Definition gets {S A} (f : S -> A) : St S A := fun s => (inr (f s), s).

Definition modify {S} (f : S -> S) : St S unit := fun s => (inr tt, f s).

(** A computation that does not touch the state. *)
Definition liftR {S A} (r : Result A) : St S A := fun s => (r, s).

Declare Scope st_scope.
Delimit Scope st_scope with st.
Notation "x <- m ;; k" := (bind m (fun x => k))
  (at level 61, m at next level, right associativity) : st_scope.
Notation "m ;; k" := (bind m (fun _ => k))
  (at level 61, right associativity) : st_scope.

(** [for (const a of l) body(a)] *)
Fixpoint for_of {S A} (l : list A) (body : A -> St S unit) : St S unit :=
  match l with
  | [] => ret tt
  | a :: l' => bind (body a) (fun _ => for_of l' body)
  end.

(** * three.js: the types the converter uses

    three.js is an external library and is not under src/.  Its camera is
    modelled from the interface the specification gives for it: the fields
    the converter reads or writes, itself or through the methods it calls.
    The numeric kernels of the library (projection, composition and
    decomposition of matrices, Euler angles of a quaternion) are parameters:
    see [Collaborators]. *)

Module Three.

Record Vector3 := mkVector3 { x : number; y : number; z : number }.

Record Quaternion := mkQuaternion { qx : number; qy : number; qz : number; qw : number }.

Inductive EulerOrder := XYZ | YXZ | ZXY | ZYX | YZX | XZY.

Record Euler := mkEuler { ex : number; ey : number; ez : number; order : EulerOrder }.

(** Modelled from the spec: three.js [Matrix4] is its [elements], "a world
    matrix (read/write, column-major 16-element layout)". *)
Definition Matrix4 := list number.

(** Modelled from the spec: three.js [Matrix4.fromArray(arr)], which reads
    [arr[0..15]] into the 16 elements.  A hole would be stored as undefined,
    which every numeric use reads as NaN. *)
Definition fromArray (arr : list (option number)) : Matrix4 :=
  map (fun i => nullish (nth i arr None) nan) (seq 0 16).

(** Modelled from the spec: three.js [Vector3.distanceTo(v)], "world-space
    camera position and target position yield a Euclidean distance":
    [Math.sqrt(dx * dx + dy * dy + dz * dz)]. *)
Definition distanceTo (a v : Vector3) : number :=
  let dx := (x a - x v)%float in
  let dy := (y a - y v)%float in
  let dz := (z a - z v)%float in
  sqrt (dx * dx + dy * dy + dz * dz)%float.

(** Modelled from the spec: three.js [Vector3.setFromMatrixPosition(m)],
    the translation of a column-major matrix: elements 12, 13, 14. *)
Definition setFromMatrixPosition (m : Matrix4) : Vector3 :=
  mkVector3 (nth 12 m nan) (nth 13 m nan) (nth 14 m nan).

(** Modelled from the spec: the camera state, "field of view (degrees),
    aspect ratio, near/far clip planes, world transform matrix, decomposed
    position/orientation/scale, a flag disabling automatic matrix
    recomputation", with the projection matrix and the local matrix that
    the recompute operations write. *)
Record PerspectiveCamera := mkCamera {
  fov : number;
  aspect : number;
  near : number;
  far : number;
  projectionMatrix : Matrix4;
  matrixAutoUpdate : bool;
  matrix : Matrix4;
  matrixWorld : Matrix4;
  position : Vector3;
  quaternion : Quaternion;
  scale : Vector3
}.

(** The assignments to the camera's fields. *)
Definition set_fov v (c : PerspectiveCamera) : PerspectiveCamera :=
  {| fov := v;
     aspect := aspect c;
     near := near c;
     far := far c;
     projectionMatrix := projectionMatrix c;
     matrixAutoUpdate := matrixAutoUpdate c;
     matrix := matrix c;
     matrixWorld := matrixWorld c;
     position := position c;
     quaternion := quaternion c;
     scale := scale c |}.

Definition set_aspect v (c : PerspectiveCamera) : PerspectiveCamera :=
  {| fov := fov c;
     aspect := v;
     near := near c;
     far := far c;
     projectionMatrix := projectionMatrix c;
     matrixAutoUpdate := matrixAutoUpdate c;
     matrix := matrix c;
     matrixWorld := matrixWorld c;
     position := position c;
     quaternion := quaternion c;
     scale := scale c |}.

Definition set_near v (c : PerspectiveCamera) : PerspectiveCamera :=
  {| fov := fov c;
     aspect := aspect c;
     near := v;
     far := far c;
     projectionMatrix := projectionMatrix c;
     matrixAutoUpdate := matrixAutoUpdate c;
     matrix := matrix c;
     matrixWorld := matrixWorld c;
     position := position c;
     quaternion := quaternion c;
     scale := scale c |}.

Definition set_far v (c : PerspectiveCamera) : PerspectiveCamera :=
  {| fov := fov c;
     aspect := aspect c;
     near := near c;
     far := v;
     projectionMatrix := projectionMatrix c;
     matrixAutoUpdate := matrixAutoUpdate c;
     matrix := matrix c;
     matrixWorld := matrixWorld c;
     position := position c;
     quaternion := quaternion c;
     scale := scale c |}.

Definition set_projectionMatrix v (c : PerspectiveCamera) : PerspectiveCamera :=
  {| fov := fov c;
     aspect := aspect c;
     near := near c;
     far := far c;
     projectionMatrix := v;
     matrixAutoUpdate := matrixAutoUpdate c;
     matrix := matrix c;
     matrixWorld := matrixWorld c;
     position := position c;
     quaternion := quaternion c;
     scale := scale c |}.

Definition set_matrixAutoUpdate v (c : PerspectiveCamera) : PerspectiveCamera :=
  {| fov := fov c;
     aspect := aspect c;
     near := near c;
     far := far c;
     projectionMatrix := projectionMatrix c;
     matrixAutoUpdate := v;
     matrix := matrix c;
     matrixWorld := matrixWorld c;
     position := position c;
     quaternion := quaternion c;
     scale := scale c |}.

Definition set_matrix v (c : PerspectiveCamera) : PerspectiveCamera :=
  {| fov := fov c;
     aspect := aspect c;
     near := near c;
     far := far c;
     projectionMatrix := projectionMatrix c;
     matrixAutoUpdate := matrixAutoUpdate c;
     matrix := v;
     matrixWorld := matrixWorld c;
     position := position c;
     quaternion := quaternion c;
     scale := scale c |}.

Definition set_matrixWorld v (c : PerspectiveCamera) : PerspectiveCamera :=
  {| fov := fov c;
     aspect := aspect c;
     near := near c;
     far := far c;
     projectionMatrix := projectionMatrix c;
     matrixAutoUpdate := matrixAutoUpdate c;
     matrix := matrix c;
     matrixWorld := v;
     position := position c;
     quaternion := quaternion c;
     scale := scale c |}.

(** [decompose] writes position, quaternion and scale together. *)
Definition set_transform p q s (c : PerspectiveCamera) : PerspectiveCamera :=
  {| fov := fov c;
     aspect := aspect c;
     near := near c;
     far := far c;
     projectionMatrix := projectionMatrix c;
     matrixAutoUpdate := matrixAutoUpdate c;
     matrix := matrix c;
     matrixWorld := matrixWorld c;
     position := p;
     quaternion := q;
     scale := s |}.

End Three.

(** * types.ts *)

Record FspyPoint := { point_x : number; point_y : number }.

(** [rows: number[][]].  An entry that is missing at run time (undefined, or
    a hole of the array) is [None]: matrixFromFSpyRows tests for it. *)
Record FspyTransformMatrix := { rows : list (list (option number)) }.

Inductive VanishingPointAxis :=
| xPositive | xNegative | yPositive | yNegative | zPositive | zNegative.

Record FspyData := {
  principalPoint : FspyPoint;
  viewTransform : FspyTransformMatrix;
  cameraTransform : FspyTransformMatrix;
  horizontalFieldOfView : number;
  verticalFieldOfView : number;
  vanishingPoints : list FspyPoint;
  vanishingPointAxes : list VanishingPointAxis;
  relativeFocalLength : number;
  imageWidth : number;
  imageHeight : number
}.

Record ApplyFSpyToCameraOptions := { opt_near : option number; opt_far : option number }.

Record ExportVmdOptions := {
  opt_distanceMultiplier : option number;
  opt_target : option (number * number * number);
  opt_frameTime : option number
}.

Record FspyVmdConverterOptions := { opt_distanceBaseMultiplier : option number }.

(** [Required<FspyVmdConverterOptions>] *)
Record RequiredConverterOptions := { distanceBaseMultiplier : number }.

(** A tuple [[number, number, number]] and its three indices. *)
Definition triple := (number * number * number)%type.
Definition at0 (t : triple) : number := fst (fst t).
Definition at1 (t : triple) : number := snd (fst t).
Definition at2 (t : triple) : number := snd t.

(** [curve] is a 24-tuple in types.ts; the writer iterates over whatever
    entries it has, so it is a list here and [well_typed_frame] says 24. *)
Record CameraFrame := {
  frameTime : number;
  distance : number;
  position : triple;
  rotation : triple;
  curve : list number;
  viewAngle : number;
  orthographic : number
}.

Definition well_typed_frame (f : CameraFrame) : Prop := length (curve f) = 24%nat.

(** * FspyVmdConverter: constants *)

Definition DEGREES_PER_HALF_TURN : number := 180%float.
Definition MATRIX_SIZE : nat := 4.
Definition MATRIX_ELEMENT_COUNT : nat := 16.
Definition DEFAULT_NEAR : number := 0.01%float.
Definition DEFAULT_FAR : number := 2000%float.

Definition CAMERA_CURVE_START : number := 20%float.
Definition CAMERA_CURVE_END : number := 107%float.
Definition CAMERA_CURVE_PAIR_COUNT : nat := 12.

Definition VMD_HEADER_SIZE : nat := 30.
Definition VMD_MODEL_NAME_SIZE : nat := 20.
Definition VMD_UINT32_SIZE : nat := 4.
Definition VMD_CAMERA_FRAME_SIZE : nat := 61.
Definition ASCII_MASK : Z := 0x7f.
Definition VMD_COUNT_FIELDS : nat := 6.

Definition DISTANCE_BASE_MULTIPLIER : number := 5%float.
Definition DEFAULT_FRAME_TIME : number := 0%float.
Definition DEFAULT_ORTHOGRAPHIC : number := 0%float.

Definition CAMERA_MODEL_NAME_SJIS : list Z :=
  [0x83; 0x4a; 0x83; 0x81; 0x83; 0x89; 0x81; 0x45; 0x8f; 0xc6; 0x96; 0xbe].

(** The UTF-16 code units of a string literal ([str.charCodeAt(i)]). *)
Fixpoint code_units (s : string) : list Z :=
  match s with
  | EmptyString => []
  | String c s' => Z.of_nat (nat_of_ascii c) :: code_units s'
  end.

Definition VMD_SIGNATURE : string := "Vocaloid Motion Data 0002".

(** * The collaborators of the converter

    What the converter calls and src/ does not define: the host's two ways
    of deep-copying a record, and the numeric kernels of three.js.  Every
    property below holds for every choice of them. *)

Class Collaborators := {
  (** [globalThis.structuredClone], when the host has it *)
  structuredClone : option (FspyData -> FspyData);
  (** [JSON.parse(JSON.stringify(fspy))] *)
  JSON_roundtrip : FspyData -> FspyData;
  (** the projection matrix of a camera with the given fov, aspect, near, far *)
  makePerspective : number -> number -> number -> number -> Three.Matrix4;
  (** [Matrix4.compose(position, quaternion, scale)] *)
  compose : Three.Vector3 -> Three.Quaternion -> Three.Vector3 -> Three.Matrix4;
  (** [Matrix4.decompose(position, quaternion, scale)] *)
  decompose : Three.Matrix4 -> Three.Vector3 * Three.Quaternion * Three.Vector3;
  (** [new Euler().setFromQuaternion(q, order)] *)
  setFromQuaternion : Three.Quaternion -> Three.EulerOrder -> Three.Euler
}.

(** * three.js: the camera methods the converter calls

    Written for a camera without a parent object (the camera the converter
    is given in the README), in terms of the kernels above. *)

Section Camera.

Context {ext : Collaborators}.

Import Three.

(** Modelled from the spec: [camera.updateProjectionMatrix()], "a
    projection-matrix recompute operation"; it writes the projection matrix
    and nothing else. *)
Definition updateProjectionMatrix (c : PerspectiveCamera) : PerspectiveCamera :=
  set_projectionMatrix (makePerspective (fov c) (aspect c) (near c) (far c)) c.

(** Modelled from the spec: [camera.matrixWorld.copy(m)], which "assigns it
    as the camera's world matrix directly". *)
Definition matrixWorld_copy (m : Matrix4) (c : PerspectiveCamera) : PerspectiveCamera :=
  set_matrixWorld m c.

(** Modelled from the spec:
    [camera.matrixWorld.decompose(camera.position, camera.quaternion, camera.scale)],
    "a world-matrix decompose-to-position/orientation/scale operation". *)
Definition matrixWorld_decompose (c : PerspectiveCamera) : PerspectiveCamera :=
  let '(p, q, s) := decompose (matrixWorld c) in set_transform p q s c.

(** Modelled from the spec: [camera.updateMatrix()], the "recompute-now
    operation" for the local matrix, from position, quaternion, scale. *)
Definition updateMatrix (c : PerspectiveCamera) : PerspectiveCamera :=
  set_matrix (compose (position c) (quaternion c) (scale c)) c.

(** Modelled from the spec: [camera.updateWorldMatrix(true, false)], which
    the two getters below call first.  Without a parent the world matrix is
    the local one, recomputed first unless "the flag suppressing automatic
    matrix recomputation" is set (matrixAutoUpdate false). *)
Definition updateWorldMatrix (c : PerspectiveCamera) : PerspectiveCamera :=
  let c1 := if matrixAutoUpdate c then updateMatrix c else c in
  set_matrixWorld (matrix c1) c1.

(** Modelled from the spec: [camera.updateMatrixWorld(true)], the
    "recompute-now operation" for the world matrix, forced. *)
Definition updateMatrixWorld_true (c : PerspectiveCamera) : PerspectiveCamera :=
  let c1 := if matrixAutoUpdate c then updateMatrix c else c in
  set_matrixWorld (matrix c1) c1.

(** Modelled from the spec: [camera.getWorldPosition(new Vector3())], which
    "reads back the camera's current world position". *)
Definition getWorldPosition : St PerspectiveCamera Vector3 :=
  (modify updateWorldMatrix ;;
   gets (fun c => setFromMatrixPosition (matrixWorld c)))%st.

(** Modelled from the spec: [camera.getWorldQuaternion(new Quaternion())],
    which reads back the camera's current world orientation. *)
Definition getWorldQuaternion : St PerspectiveCamera Quaternion :=
  (modify updateWorldMatrix ;;
   gets (fun c => snd (fst (decompose (matrixWorld c)))))%st.

(** What the two getters return, as functions of the camera. *)
Definition worldPosition (c : PerspectiveCamera) : Vector3 :=
  setFromMatrixPosition (matrixWorld (updateWorldMatrix c)).

Definition worldQuaternion (c : PerspectiveCamera) : Quaternion :=
  snd (fst (decompose (matrixWorld (updateWorldMatrix c)))).

End Camera.

(** * FspyVmdConverter *)

Record FspyVmdConverter := mkConverter {
  camera : Three.PerspectiveCamera;
  fspyData : option FspyData;
  converterOptions : RequiredConverterOptions
}.

Definition set_camera (c : Three.PerspectiveCamera) (this : FspyVmdConverter) :=
  mkConverter c (fspyData this) (converterOptions this).

Definition set_fspyData (d : option FspyData) (this : FspyVmdConverter) :=
  mkConverter (camera this) d (converterOptions this).

(** A write to the camera the converter holds. *)
Definition on_camera (f : Three.PerspectiveCamera -> Three.PerspectiveCamera)
  : St FspyVmdConverter unit :=
  modify (fun this => set_camera (f (camera this)) this).

(** A method call on the camera the converter holds. *)
Definition call_camera {A} (m : St Three.PerspectiveCamera A) : St FspyVmdConverter A :=
  fun this => let '(r, c) := m (camera this) in (r, set_camera c this).

Definition ArrayBuffer := list Z.

(** ** The binary writer: the local state of writeCameraVmd *)

Record Writer := mkWriter { uint8 : list Z; offset : nat }.

(** A write into the buffer at the current offset, which then advances by
    [n]: [uint8.set(bytes, offset)], and [view.setUint32], [view.setFloat32],
    [view.setUint8], which throw a RangeError out of range as well. *)
Definition write_at_offset (bytes : list Z) (n : nat) : St Writer unit :=
  fun w =>
    match TypedArray_set (uint8 w) bytes (offset w) with
    | Some u => (inr tt, mkWriter u (offset w + n))
    | None => (inl RangeError, w)
    end.

Definition writeBytes (bytes : list Z) (len : nat) : St Writer unit :=
  let padded := Uint8Array_new len in
  match TypedArray_set padded (slice0 bytes len) 0 with
  | Some padded => write_at_offset padded len
  | None => throw RangeError
  end.

Definition writeAscii (str : list Z) (len : nat) : St Writer unit :=
  let bytes :=
    fold_left (fun bytes i => store bytes i (Z.land (nth i str 0) ASCII_MASK))
              (seq 0 (Nat.min (length str) len)) (Uint8Array_new len) in
  write_at_offset bytes len.

Definition writeUint32 (value : number) : St Writer unit :=
  write_at_offset (le_bytes 4 (ToUint32 value)) VMD_UINT32_SIZE.

Definition writeFloat32 (value : number) : St Writer unit :=
  write_at_offset (le_bytes 4 (binary32_bits (to_binary32 value))) VMD_UINT32_SIZE.

Definition writeUint8 (value : number) : St Writer unit :=
  write_at_offset [ToUint8 value] 1.

Local Open Scope st_scope.

Definition writeFrame (frame : CameraFrame) : St Writer unit :=
  writeUint32 (frameTime frame) ;;
  writeFloat32 (distance frame) ;;
  writeFloat32 (at0 (position frame)) ;;
  writeFloat32 (at1 (position frame)) ;;
  writeFloat32 (at2 (position frame)) ;;
  writeFloat32 (at0 (rotation frame)) ;;
  writeFloat32 (at1 (rotation frame)) ;;
  writeFloat32 (at2 (rotation frame)) ;;
  for_of (curve frame) writeUint8 ;;
  writeUint32 (viewAngle frame) ;;
  writeUint8 (orthographic frame).

Definition writeCameraVmd_body (cameraFrames : list CameraFrame) : St Writer unit :=
  writeAscii (code_units VMD_SIGNATURE) VMD_HEADER_SIZE ;;
  writeBytes CAMERA_MODEL_NAME_SJIS VMD_MODEL_NAME_SIZE ;;
  writeUint32 0%float ;;
  writeUint32 0%float ;;
  writeUint32 (of_Z (Z.of_nat (length cameraFrames))) ;;
  for_of cameraFrames writeFrame ;;
  writeUint32 0%float ;;
  writeUint32 0%float ;;
  writeUint32 0%float.

(** [writeCameraVmd] reads no field of the converter: its buffer, views and
    offset are locals, created by each call. *)
Definition writeCameraVmd (cameraFrames : list CameraFrame) : Result ArrayBuffer :=
  let totalSize :=
    (VMD_HEADER_SIZE + VMD_MODEL_NAME_SIZE + VMD_UINT32_SIZE * VMD_COUNT_FIELDS
     + length cameraFrames * VMD_CAMERA_FRAME_SIZE)%nat in
  let buffer := repeat 0 totalSize in
  match writeCameraVmd_body cameraFrames (mkWriter buffer 0) with
  | (inr _, w) => inr (uint8 w)
  | (inl e, _) => inl e
  end.

(** ** createDefaultCameraCurve *)

Definition createDefaultCameraCurve : list number :=
  fold_left (fun curve _ => curve ++ [CAMERA_CURVE_START; CAMERA_CURVE_END])
            (seq 0 CAMERA_CURVE_PAIR_COUNT) [].

(** ** radToDeg *)

Definition radToDeg (radian : number) : number :=
  ((radian * DEGREES_PER_HALF_TURN) / Math_PI)%float.

(** ** matrixFromFSpyRows *)

(** [arr[i] = v] on an Array: a store past the end extends it with holes. *)
Definition Array_store {A} (arr : list (option A)) (i : nat) (v : A) : list (option A) :=
  if (i <? length arr)%nat
  then firstn i arr ++ Some v :: skipn (S i) arr
  else arr ++ repeat None (i - length arr) ++ [Some v].

(** A loop [for (let i = 0; i < n; i++)] whose body may throw, over a local. *)
Fixpoint for_range {S} (l : list nat) (body : nat -> S -> Result S) (s : S) : Result S :=
  match l with
  | [] => inr s
  | i :: l' =>
      match body i s with
      | inr s' => for_range l' body s'
      | inl e => inl e
      end
  end.

Definition matrixFromFSpyRows (rows : list (list (option number))) : Result Three.Matrix4 :=
  if negb (length rows =? MATRIX_SIZE)%nat
     || existsb (fun row => negb (length row =? MATRIX_SIZE)%nat) rows
  then inl (FspyVmdConverterError INVALID_CAMERA_TRANSFORM_ROWS_SIZE
              "cameraTransform.rows must be 4x4")
  else
    let arr := repeat None MATRIX_ELEMENT_COUNT in
    match
      for_range (seq 0 MATRIX_SIZE) (fun rowIndex =>
        for_range (seq 0 MATRIX_SIZE) (fun colIndex arr =>
          let row := nth_error rows rowIndex in
          let value :=
            match row with
            | Some row => match nth_error row colIndex with Some v => v | None => None end
            | None => None
            end in
          match value with
          | None => inl (FspyVmdConverterError INVALID_CAMERA_TRANSFORM_VALUE
                           "Invalid cameraTransform.rows access")
          | Some value => inr (Array_store arr (colIndex * MATRIX_SIZE + rowIndex) value)
          end)) arr
    with
    | inl e => inl e
    | inr arr => inr (Three.fromArray arr)
    end.

(** ** The methods of the converter *)

Section Converter.

Context {ext : Collaborators}.

(** [cloneFspyData]: structuredClone when the host has it, a JSON round
    trip otherwise. *)
Definition cloneFspyData (fspy : FspyData) : FspyData :=
  match structuredClone with
  | Some clone => clone fspy
  | None => JSON_roundtrip fspy
  end.

(** [new FspyVmdConverter(camera, options?)] *)
Definition constructor (camera : Three.PerspectiveCamera)
           (options : option FspyVmdConverterOptions) : FspyVmdConverter :=
  mkConverter camera None
    {| distanceBaseMultiplier :=
         nullish (match options with
                  | Some o => opt_distanceBaseMultiplier o
                  | None => None
                  end) DISTANCE_BASE_MULTIPLIER |}.

Definition getCamera : St FspyVmdConverter Three.PerspectiveCamera := gets camera.

Definition getFspyData : St FspyVmdConverter (option FspyData) :=
  gets (fun this =>
          match fspyData this with
          | None => None
          | Some d => Some (cloneFspyData d)
          end).

Definition getOptions : St FspyVmdConverter FspyVmdConverterOptions :=
  gets (fun this =>
          {| opt_distanceBaseMultiplier :=
               Some (distanceBaseMultiplier (converterOptions this)) |}).

Definition applyFSpyToCamera (fspy : FspyData) (opts : option ApplyFSpyToCameraOptions)
  : St FspyVmdConverter unit :=
  modify (set_fspyData (Some (cloneFspyData fspy))) ;;
  on_camera (Three.set_fov (radToDeg (verticalFieldOfView fspy))) ;;
  on_camera (Three.set_aspect (imageWidth fspy / imageHeight fspy)%float) ;;
  on_camera (Three.set_near
               (nullish (match opts with Some o => opt_near o | None => None end)
                        DEFAULT_NEAR)) ;;
  on_camera (Three.set_far
               (nullish (match opts with Some o => opt_far o | None => None end)
                        DEFAULT_FAR)) ;;
  on_camera updateProjectionMatrix ;;
  camWorld <- liftR (matrixFromFSpyRows (rows (cameraTransform fspy))) ;;
  on_camera (Three.set_matrixAutoUpdate false) ;;
  on_camera (matrixWorld_copy camWorld) ;;
  on_camera matrixWorld_decompose ;;
  on_camera updateMatrix ;;
  on_camera updateMatrixWorld_true.

(** The [cameraFrame] that exportVmd builds, up to the call of the writer. *)
Definition exportVmd_cameraFrame (options : option ExportVmdOptions)
  : St FspyVmdConverter CameraFrame :=
  let options := nullish options {| opt_distanceMultiplier := None;
                                    opt_target := None;
                                    opt_frameTime := None |} in
  held <- gets fspyData ;;
  match held with
  | None =>
      throw (FspyVmdConverterError FSPY_DATA_NOT_SET
               "fSpy data is not set. Call applyFSpyToCamera before exportVmd.")
  | Some _ =>
      let targetPosition := nullish (opt_target options) (0, 0, 0)%float in
      let target := Three.mkVector3 (at0 targetPosition) (at1 targetPosition)
                                    (at2 targetPosition) in
      camPos <- call_camera getWorldPosition ;;
      let distanceMultiplier := nullish (opt_distanceMultiplier options) 1%float in
      base <- gets (fun this => distanceBaseMultiplier (converterOptions this)) ;;
      let distance :=
        (- Three.distanceTo camPos target * distanceMultiplier * base)%float in
      camQuat <- call_camera getWorldQuaternion ;;
      let euler := setFromQuaternion camQuat Three.YXZ in
      fov <- gets (fun this => Three.fov (camera this)) ;;
      ret {| frameTime := nullish (opt_frameTime options) DEFAULT_FRAME_TIME;
             distance := distance;
             position := (Three.x target, Three.y target, Three.z target);
             rotation := (Three.ex euler, Three.ey euler, (- Three.ez euler)%float);
             curve := createDefaultCameraCurve;
             viewAngle := Math_round fov;
             orthographic := DEFAULT_ORTHOGRAPHIC |}
  end.

(** The frame that exportVmd derives, as a function of the options, the
    camera and the converter options (see [exportVmd_cameraFrame_run]). *)
Definition frameOf (options : option ExportVmdOptions) (this : FspyVmdConverter)
  : CameraFrame :=
  let target :=
    nullish (match options with Some o => opt_target o | None => None end)
            (0, 0, 0)%float in
  let distanceMultiplier :=
    nullish (match options with Some o => opt_distanceMultiplier o | None => None end)
            1%float in
  let euler := setFromQuaternion (worldQuaternion (camera this)) Three.YXZ in
  {| frameTime :=
       nullish (match options with Some o => opt_frameTime o | None => None end)
               DEFAULT_FRAME_TIME;
     distance :=
       (- Three.distanceTo (worldPosition (camera this))
            (Three.mkVector3 (at0 target) (at1 target) (at2 target))
        * distanceMultiplier
        * distanceBaseMultiplier (converterOptions this))%float;
     position := (at0 target, at1 target, at2 target);
     rotation := (Three.ex euler, Three.ey euler, (- Three.ez euler)%float);
     curve := createDefaultCameraCurve;
     viewAngle := Math_round (Three.fov (camera this));
     orthographic := DEFAULT_ORTHOGRAPHIC |}.

Definition exportVmd (options : option ExportVmdOptions)
  : St FspyVmdConverter ArrayBuffer :=
  cameraFrame <- exportVmd_cameraFrame options ;;
  liftR (writeCameraVmd [cameraFrame]).

End Converter.

(** * A sample environment and sample data *)

Module Sample.

Local Open Scope float_scope.

Definition identity : Three.Matrix4 :=
  [1; 0; 0; 0;  0; 1; 0; 0;  0; 0; 1; 0;  0; 0; 0; 1]%float.

(** Deep copies are copies.  The three.js kernels are the ones of cameras
    that are translated only (no rotation, unit scale), which the sample
    cameras are; the projection is left out. *)
#[local] Instance env : Collaborators := {|
  structuredClone := Some (fun d => d);
  JSON_roundtrip := fun d => d;
  makePerspective := fun _ _ _ _ => identity;
  compose := fun p _ _ =>
    [1; 0; 0; 0;  0; 1; 0; 0;  0; 0; 1; 0;  Three.x p; Three.y p; Three.z p; 1]%float;
  decompose := fun m =>
    (Three.setFromMatrixPosition m, Three.mkQuaternion 0 0 0 1, Three.mkVector3 1 1 1);
  setFromQuaternion := fun q o => Three.mkEuler 0 0 0 o
|}.

(** [new THREE.PerspectiveCamera(75, 1.5, 0.1, 2000)] *)
Definition camera0 : Three.PerspectiveCamera :=
  {| Three.fov := 75;
     Three.aspect := 1.5;
     Three.near := 0.1;
     Three.far := 2000;
     Three.projectionMatrix := identity;
     Three.matrixAutoUpdate := true;
     Three.matrix := identity;
     Three.matrixWorld := identity;
     Three.position := Three.mkVector3 0 0 0;
     Three.quaternion := Three.mkQuaternion 0 0 0 1;
     Three.scale := Three.mkVector3 1 1 1 |}.

Definition transform (rs : list (list (option number))) : FspyTransformMatrix :=
  {| rows := rs |}.

Definition row (a b c d : number) : list (option number) :=
  [Some a; Some b; Some c; Some d].

(** A camera 10 units up the z axis. *)
Definition rows_z10 : list (list (option number)) :=
  [row 1 0 0 0; row 0 1 0 0; row 0 0 1 10; row 0 0 0 1].

Definition fspy_with (rs : list (list (option number))) : FspyData :=
  {| principalPoint := {| point_x := 0; point_y := 0 |};
     viewTransform := transform rows_z10;
     cameraTransform := transform rs;
     horizontalFieldOfView := 1;
     verticalFieldOfView := 0.5;
     vanishingPoints := [];
     vanishingPointAxes := [xPositive; zNegative];
     relativeFocalLength := 1;
     imageWidth := 1920;
     imageHeight := 1080 |}.

(** Three rows only. *)
Definition rows_3 : list (list (option number)) :=
  [row 1 0 0 0; row 0 1 0 0; row 0 0 1 10].

(** Four rows of four, one entry undefined. *)
Definition rows_hole : list (list (option number)) :=
  [row 1 0 0 0; [Some 0; None; Some 0; Some 0]%float; row 0 0 1 10; row 0 0 0 1].

(** A fresh converter on [camera0], and the converter after the
    calibration [rows_z10] has been applied to it. *)
Definition converter0 : FspyVmdConverter := constructor camera0 None.

Definition converter_z10 : FspyVmdConverter :=
  snd (applyFSpyToCamera (fspy_with rows_z10) None converter0).

(** A row of length three. *)
Definition rows_short : list (list (option number)) :=
  [row 1 0 0 0; [Some 0; Some 1; Some 0]; row 0 0 1 10; row 0 0 0 1].

Definition frame0 : CameraFrame :=
  {| frameTime := 0; distance := (-50); position := (0, 0, 0)%float;
     rotation := (0, 0, 0)%float; curve := createDefaultCameraCurve;
     viewAngle := 45; orthographic := 0 |}.

End Sample.

(** * The layout of the file, field after field

    The table of the format: what a reader of the file finds, written as a
    concatenation.  [writeCameraVmd] is proved to produce exactly this. *)

Definition layout_uint32 (v : number) : list Z := le_bytes 4 (ToUint32 v).

Definition layout_float32 (v : number) : list Z := le_bytes 4 (binary32_bits (to_binary32 v)).

Definition layout_uint8 (v : number) : list Z := [ToUint8 v].

(** The text of the signature, zero-padded to its 30 bytes. *)
Definition signature_field : list Z :=
  code_units VMD_SIGNATURE ++ repeat 0 (VMD_HEADER_SIZE - length (code_units VMD_SIGNATURE)).

(** The model name, zero-padded to its 20 bytes. *)
Definition model_name_field : list Z :=
  CAMERA_MODEL_NAME_SJIS ++ repeat 0 (VMD_MODEL_NAME_SIZE - length CAMERA_MODEL_NAME_SJIS).

Definition layout_frame (f : CameraFrame) : list Z :=
  layout_uint32 (frameTime f) ++
  layout_float32 (distance f) ++
  layout_float32 (at0 (position f)) ++
  layout_float32 (at1 (position f)) ++
  layout_float32 (at2 (position f)) ++
  layout_float32 (at0 (rotation f)) ++
  layout_float32 (at1 (rotation f)) ++
  layout_float32 (at2 (rotation f)) ++
  flat_map layout_uint8 (curve f) ++
  layout_uint32 (viewAngle f) ++
  layout_uint8 (orthographic f).

Definition layout_file (frames : list CameraFrame) : list Z :=
  signature_field ++
  model_name_field ++
  layout_uint32 0%float ++
  layout_uint32 0%float ++
  layout_uint32 (of_Z (Z.of_nat (length frames))) ++
  flat_map layout_frame frames ++
  layout_uint32 0%float ++
  layout_uint32 0%float ++
  layout_uint32 0%float.

(** The bytes before the camera-frame count. *)
Definition header_before_count : list Z :=
  signature_field ++ model_name_field ++ layout_uint32 0%float ++ layout_uint32 0%float.

(** The offset of the camera-frame count: after the signature, the model
    name, the bone-frame count and the morph-frame count. *)
Definition CAMERA_COUNT_OFFSET : nat :=
  (VMD_HEADER_SIZE + VMD_MODEL_NAME_SIZE + VMD_UINT32_SIZE + VMD_UINT32_SIZE)%nat.

(** [new DataView(buffer).getUint32(off, true)] *)
Definition getUint32 (buffer : list Z) (off : nat) : Z :=
  le_value (firstn 4 (skipn off buffer)).

(** [appends m bs]: run where everything before the offset is written and
    everything after it is still zero, [m] writes [bs] at the offset and
    moves the offset past it. *)
Definition appends (m : St Writer unit) (bs : list Z) : Prop :=
  forall (pre : list Z) (k : nat),
    (length bs <= k)%nat ->
    m (mkWriter (pre ++ repeat 0 k) (length pre))
    = (inr tt, mkWriter ((pre ++ bs) ++ repeat 0 (k - length bs)) (length (pre ++ bs))).

(** * The matrix conversion, stated *)

(** [rows[r][c]], undefined ([None]) when absent. *)
Definition entry (rows : list (list (option number))) (r c : nat) : option number :=
  match nth_error rows r with
  | Some row => match nth_error row c with Some v => v | None => None end
  | None => None
  end.

(** Four rows of four entries: the input passes the shape test. *)
Definition is_4x4 (rows : list (list (option number))) : Prop :=
  length rows = 4%nat /\ Forall (fun row => length row = 4%nat) rows.

Definition is_undefined (v : option number) : bool :=
  match v with None => true | Some _ => false end.

(** Some entry of some row is undefined. *)
Definition has_undefined (rows : list (list (option number))) : bool :=
  existsb (existsb is_undefined) rows.

(** The transposed storage: element [col * 4 + row] is [rows[row][col]]. *)
Definition columnMajor (rows : list (list (option number))) : Three.Matrix4 :=
  map (fun i => nullish (entry rows (i mod MATRIX_SIZE) (i / MATRIX_SIZE)) nan)
      (seq 0 MATRIX_ELEMENT_COUNT).

(** The conversion back to rows.  The converter has no such function: this
    is the re-transposition the round-trip law speaks of,
    [rows[r][c] = elements[c * 4 + r]]. *)
Definition rowsFromColumnMajor (elements : Three.Matrix4) : list (list (option number)) :=
  map (fun r => map (fun c => nth_error elements (c * MATRIX_SIZE + r)) (seq 0 MATRIX_SIZE))
      (seq 0 MATRIX_SIZE).

(** The two errors of matrixFromFSpyRows. *)
Definition ROWS_SIZE_ERROR : Exception :=
  FspyVmdConverterError INVALID_CAMERA_TRANSFORM_ROWS_SIZE "cameraTransform.rows must be 4x4".

Definition VALUE_ERROR : Exception :=
  FspyVmdConverterError INVALID_CAMERA_TRANSFORM_VALUE "Invalid cameraTransform.rows access".

(** The camera as applyFSpyToCamera has it when it reaches the matrix: fov,
    aspect, near and far assigned, the projection matrix recomputed. *)
Definition camera_before_matrix {ext : Collaborators} (fspy : FspyData)
           (opts : option ApplyFSpyToCameraOptions) (c : Three.PerspectiveCamera)
  : Three.PerspectiveCamera :=
  updateProjectionMatrix
    (Three.set_far
       (nullish (match opts with Some o => opt_far o | None => None end) DEFAULT_FAR)
       (Three.set_near
          (nullish (match opts with Some o => opt_near o | None => None end) DEFAULT_NEAR)
          (Three.set_aspect (imageWidth fspy / imageHeight fspy)%float
             (Three.set_fov (radToDeg (verticalFieldOfView fspy)) c)))).

(** * Definitions for the further properties *)

(** [writes m bs]: run where everything before the offset is written and
    [k] zero bytes are left, [m] writes [bs] at the offset when it fits and
    throws a RangeError when it does not. *)
Definition writes (m : St Writer unit) (bs : list Z) : Prop :=
  forall (pre : list Z) (k : nat),
    ((length bs <= k)%nat ->
     m (mkWriter (pre ++ repeat 0 k) (length pre))
     = (inr tt, mkWriter ((pre ++ bs) ++ repeat 0 (k - length bs)) (length (pre ++ bs))))
    /\ ((k < length bs)%nat ->
        fst (m (mkWriter (pre ++ repeat 0 k) (length pre))) = inl RangeError).

(** The number of curve entries of a frame sequence. *)
Definition curve_entries (frames : list CameraFrame) : nat :=
  list_sum (map (fun f => length (curve f)) frames).

(** The offset of frame [i] in the file. *)
Definition frame_offset (i : nat) : nat :=
  (VMD_HEADER_SIZE + VMD_MODEL_NAME_SIZE + 3 * VMD_UINT32_SIZE + i * VMD_CAMERA_FRAME_SIZE)%nat.

(** [buffer.slice(off, off + n)] *)
Definition slice (buffer : list Z) (off n : nat) : list Z := firstn n (skipn off buffer).

(** A text field: the code units of [str], each masked to 7 bits, cut at
    [len] and zero-padded to [len]. *)
Definition ascii_field (str : list Z) (len : nat) : list Z :=
  map (fun c => Z.land c ASCII_MASK) (firstn len str) ++ repeat 0 (len - length str).

(** A byte field: [bytes] cut at [len] and zero-padded to [len]. *)
Definition bytes_field (bytes : list Z) (len : nat) : list Z :=
  firstn len bytes ++ repeat 0 (len - length bytes).

(** One call of a client on the converter. *)
Inductive Call :=
| CallApply (fspy : FspyData) (opts : option ApplyFSpyToCameraOptions)
| CallExport (options : option ExportVmdOptions)
| CallGetFspyData
| CallGetOptions
| CallGetCamera.

Section Calls.

Context {ext : Collaborators}.

(** The state a call leaves, whatever its outcome (a client that catches
    the errors and goes on). *)
Definition after_call (c : Call) (this : FspyVmdConverter) : FspyVmdConverter :=
  match c with
  | CallApply fspy opts => snd (applyFSpyToCamera fspy opts this)
  | CallExport options => snd (exportVmd options this)
  | CallGetFspyData => snd (getFspyData this)
  | CallGetOptions => snd (getOptions this)
  | CallGetCamera => snd (getCamera this)
  end.

Definition after_calls (cs : list Call) (this : FspyVmdConverter) : FspyVmdConverter :=
  fold_left (fun s c => after_call c s) cs this.

Definition is_apply (c : Call) : bool :=
  match c with CallApply _ _ => true | _ => false end.

End Calls.

(** The camera a successful applyFSpyToCamera leaves. *)
Definition camera_after_apply {ext : Collaborators} (fspy : FspyData) (opts : option ApplyFSpyToCameraOptions)
           (m : Three.Matrix4) : Three.PerspectiveCamera :=
  let fov := radToDeg (verticalFieldOfView fspy) in
  let aspect := (imageWidth fspy / imageHeight fspy)%float in
  let near := nullish (match opts with Some o => opt_near o | None => None end) DEFAULT_NEAR in
  let far := nullish (match opts with Some o => opt_far o | None => None end) DEFAULT_FAR in
  let '(p, q, s) := decompose m in
  {| Three.fov := fov;
     Three.aspect := aspect;
     Three.near := near;
     Three.far := far;
     Three.projectionMatrix := makePerspective fov aspect near far;
     Three.matrixAutoUpdate := false;
     Three.matrix := compose p q s;
     Three.matrixWorld := compose p q s;
     Three.position := p;
     Three.quaternion := q;
     Three.scale := s |}.

(** NaN, a zero, or a value with the sign bit [s]. *)
Definition sign_or_zero (s : bool) (x : spec_float) : Prop :=
  match x with
  | S754_nan | S754_zero _ => True
  | S754_infinity s' | S754_finite s' _ _ => s' = s
  end.

(** Edge inputs. *)
Module Edge.

Local Open Scope float_scope.

(** A calibration of an image of height zero. *)
Definition fspy_zero_height : FspyData :=
  {| principalPoint := {| point_x := 0; point_y := 0 |};
     viewTransform := Sample.transform Sample.rows_z10;
     cameraTransform := Sample.transform Sample.rows_z10;
     horizontalFieldOfView := 1;
     verticalFieldOfView := 0.5;
     vanishingPoints := [];
     vanishingPointAxes := [];
     relativeFocalLength := 1;
     imageWidth := 1920;
     imageHeight := 0 |}.

(** A frame with one curve entry too many, and one with none. *)
Definition frame_long_curve : CameraFrame :=
  {| frameTime := 0; distance := (-50); position := (0, 0, 0);
     rotation := (0, 0, 0); curve := createDefaultCameraCurve ++ [20];
     viewAngle := 45; orthographic := 0 |}.

Definition frame_no_curve : CameraFrame :=
  {| frameTime := 7; distance := (-50); position := (0, 0, 0);
     rotation := (0, 0, 0); curve := [];
     viewAngle := 45; orthographic := 1 |}.

End Edge.

(* ================================================================= *)
(** * Properties *)

(** ** The host: conversions *)

Example truncate_examples :
  map truncate [3.7; (-3.7); 0; 4294967297; (1/0); (0/0)]%float
  = [3; -3; 0; 4294967297; 0; 0].
Proof. vm_compute. reflexivity. Qed.

Example Math_round_examples :
  map Math_round [2.5; (-2.5); 2.4; 45; 0.49; 35.98339; 0.5; (-0.5); (-0.2); (-1.5);
                  0x1.fffffffffffffp-2]%float
  = [3; (-2); 2; 45; 0; 36; 1; (-0); (-0); (-1); 0]%float.
Proof. vm_compute. reflexivity. Qed.

Example ToUint32_examples :
  map ToUint32 [0; 1; (-1); 4294967296; 4294967297.9; 29]%float
  = [0; 1; 4294967295; 0; 1; 29].
Proof. vm_compute. reflexivity. Qed.

Example radToDeg_examples :
  radToDeg (Math_PI / 2)%float = 90%float /\ radToDeg Math_PI = 180%float.
Proof. split; vm_compute; reflexivity. Qed.

Example binary32_examples :
  map (fun x => binary32_bits (to_binary32 x)) [(-50); 1; 0.1; (0/0); 1e300; 1e-45]%float
  = [0xC2480000; 0x3F800000; 0x3DCCCCCD; 0x7FC00000; 0x7F800000; 1].
Proof. vm_compute. reflexivity. Qed.

Lemma le_bytes_length (n : nat) (v : Z) : length (le_bytes n v) = n.
Proof.
  revert v; induction n as [|n IH]; intros v; simpl; [reflexivity|].
  now rewrite IH.
Qed.

Lemma le_value_le_bytes (n : nat) (v : Z) :
  0 <= v < 256 ^ Z.of_nat n -> le_value (le_bytes n v) = v.
Proof.
  revert v; induction n as [|n IH]; intros v Hv.
  - simpl in *. lia.
  - cbn [le_bytes le_value].
    rewrite IH.
    + pose proof (Z.div_mod v 256). lia.
    + rewrite Nat2Z.inj_succ, Z.pow_succ_r in Hv by lia.
      split.
      * apply Z.div_pos; lia.
      * apply Z.div_lt_upper_bound; lia.
Qed.

Lemma ToUint32_range (x : number) : 0 <= ToUint32 x < 2 ^ 32.
Proof. unfold ToUint32. apply Z.mod_pos_bound. lia. Qed.

(** ** Integers as Numbers: [ToUint32] of an array length is the length *)

Lemma digits2_pos_size (p : positive) : digits2_pos p = Pos.size p.
Proof. induction p; simpl; congruence. Qed.

Lemma digits2_pos_iter_xO (k p : positive) :
  Zpos (digits2_pos (Pos.iter xO p k)) = Zpos (digits2_pos p) + Zpos k.
Proof.
  induction k using Pos.peano_ind.
  - simpl. lia.
  - rewrite Pos.iter_succ. cbn [digits2_pos]. lia.
Qed.

Lemma Zpos_iter_xO (k p : positive) :
  Zpos (Pos.iter xO p k) = Zpos p * 2 ^ Zpos k.
Proof.
  induction k using Pos.peano_ind.
  - simpl. lia.
  - rewrite Pos.iter_succ, Pos2Z.inj_succ, Z.pow_succ_r by lia. lia.
Qed.

Lemma digits2_pos_bound (p : positive) (n : Z) :
  0 <= n -> Zpos p < 2 ^ n -> Zpos (digits2_pos p) <= n.
Proof.
  intros Hn Hp.
  rewrite digits2_pos_size.
  pose proof (Pos.size_le p) as Hs.
  assert (H2 : 2 ^ Zpos (Pos.size p) <= 2 * Zpos p).
  { change 2 with (Zpos 2) at 1. rewrite <- Pos2Z.inj_pow. 
    change (2 * Zpos p) with (Zpos (p~0)). apply Pos2Z.pos_le_pos. exact Hs. }
  destruct (Z.le_gt_cases (Zpos (Pos.size p)) n) as [|Hgt]; [assumption|].
  exfalso.
  assert (2 ^ (n + 1) <= 2 ^ Zpos (Pos.size p)) by (apply Z.pow_le_mono_r; lia).
  rewrite Z.pow_add_r in H by lia. lia.
Qed.

Lemma binary_normalize_exact (p : positive) :
  Zpos p < 2 ^ 53 ->
  exists m e,
    binary_normalize prec emax (Zpos p) 0 false = S754_finite false m e
    /\ valid_binary (S754_finite false m e) = true
    /\ Z.shiftl (Zpos m) e = Zpos p.
Proof.
  intros Hp.
  pose proof (digits2_pos_bound p 53 ltac:(lia) Hp) as Hd.
  assert (Hd1 : 1 <= Zpos (digits2_pos p)) by lia.
  unfold binary_normalize, binary_round.
  assert (Hf : fexp prec emax (Zpos (digits2_pos p) + 0) = Zpos (digits2_pos p) - 53).
  { unfold fexp, emin, prec, emax. lia. }
  rewrite Hf.
  remember (Zpos (digits2_pos p) - 53) as e0 eqn:He0.
  destruct e0 as [|k|k].
  - (* 53 digits *) 
    cbn [shl_align Z.sub Z.add Z.opp Z.pos_sub].
    unfold binary_round_aux, shr_fexp.
    cbn [Zdigits2 shr_record_of_loc].
    replace (fexp prec emax (Zpos (digits2_pos p) + 0) - 0) with 0 by lia.
    cbn [shr shr_m loc_of_shr_record round_nearest_even Zdigits2].
    replace (fexp prec emax (Zpos (digits2_pos p) + 0) - 0) with 0 by lia.
    cbn [shr shr_m].
    exists p, 0. split; [reflexivity|]. split.
    + unfold valid_binary, SpecFloat.valid_binary, bounded, canonical_mantissa.
      rewrite Hf. reflexivity.
    + reflexivity.
  - lia.
  - (* fewer digits: the mantissa is shifted left by k *)
    unfold shl_align. replace (Zneg k - 0) with (Zneg k) by lia.
    unfold binary_round_aux, shr_fexp.
    cbn [Zdigits2 shr_record_of_loc].
    assert (Hk : fexp prec emax (Zpos (digits2_pos (Pos.iter xO p k)) + Zneg k) - Zneg k = 0).
    { rewrite digits2_pos_iter_xO. unfold fexp, emin, prec, emax. lia. }
    rewrite Hk.
    cbn [shr shr_m loc_of_shr_record round_nearest_even Zdigits2].
    rewrite Hk.
    cbn [shr shr_m].
    assert (Hle : (Zneg k <=? emax - prec) = true) by (apply Z.leb_le; unfold emax, prec; lia).
    rewrite Hle.
    exists (Pos.iter xO p k), (Zneg k). split; [reflexivity|]. split.
    + unfold valid_binary, SpecFloat.valid_binary, bounded, canonical_mantissa.
      rewrite Hle, andb_true_r. apply Z.eqb_eq. lia.
    + rewrite Zpos_iter_xO.
      rewrite Z.shiftl_div_pow2 by lia.
      change (- Zneg k) with (Zpos k).
      apply Z.div_mul. apply Z.pow_nonzero; lia.
Qed.

Lemma truncate_of_Z (n : Z) : 0 <= n < 2 ^ 53 -> truncate (of_Z n) = n.
Proof.
  intros [H0 Hn]. unfold truncate, of_Z.
  destruct n as [|p|p]; [| |lia].
  - reflexivity.
  - destruct (binary_normalize_exact p Hn) as (m & e & Hb & Hv & Hs).
    rewrite Hb, Prim2SF_SF2Prim by exact Hv. exact Hs.
Qed.

Lemma ToUint32_of_nat (n : nat) :
  Z.of_nat n < 2 ^ 32 -> ToUint32 (of_Z (Z.of_nat n)) = Z.of_nat n.
Proof.
  intros Hn. unfold ToUint32.
  rewrite truncate_of_Z by lia.
  apply Z.mod_small. lia.
Qed.

(** ** The writer appends *)

Lemma skipn_repeat {A} (a : A) (n k : nat) : skipn n (repeat a k) = repeat a (k - n).
Proof.
  revert k; induction n as [|n IH]; intros k.
  - now rewrite Nat.sub_0_r.
  - destruct k as [|k]; simpl; [reflexivity|apply IH].
Qed.

Lemma appends_write_at_offset (bytes : list Z) (n : nat) :
  length bytes = n -> appends (write_at_offset bytes n) bytes.
Proof.
  intros Hn pre k Hk. unfold write_at_offset, TypedArray_set. cbn [uint8 offset].
  rewrite !length_app, repeat_length.
  destruct (Nat.leb_spec (length pre + length bytes) (length pre + k)) as [_|]; [|lia].
  rewrite firstn_app, firstn_all, Nat.sub_diag, firstn_O, app_nil_r.
  rewrite skipn_app, skipn_all2 by lia.
  replace (length pre + length bytes - length pre)%nat with (length bytes) by lia.
  rewrite skipn_repeat, <- app_assoc, Hn. reflexivity.
Qed.

Lemma appends_ret : appends (ret tt) [].
Proof.
  intros pre k _. unfold ret. simpl. now rewrite app_nil_r, Nat.sub_0_r.
Qed.

Lemma appends_bind (m1 : St Writer unit) (m2 : unit -> St Writer unit) (b1 b2 : list Z) :
  appends m1 b1 -> appends (m2 tt) b2 -> appends (bind m1 m2) (b1 ++ b2).
Proof.
  intros H1 H2 pre k Hk. rewrite length_app in Hk.
  unfold bind. rewrite H1 by lia.
  rewrite H2 by lia.
  rewrite <- (app_assoc pre b1 b2), (length_app b1 b2), Nat.sub_add_distr.
  reflexivity.
Qed.

Lemma appends_for_of {A} (body : A -> St Writer unit) (enc : A -> list Z) (l : list A) :
  (forall a, In a l -> appends (body a) (enc a)) ->
  appends (for_of l body) (flat_map enc l).
Proof.
  induction l as [|a l IH]; intros H.
  - apply appends_ret.
  - cbn [for_of flat_map]. apply appends_bind.
    + apply H. now left.
    + apply IH. intros b Hb. apply H. now right.
Qed.

Lemma appends_writeUint32 (v : number) : appends (writeUint32 v) (layout_uint32 v).
Proof. apply appends_write_at_offset, le_bytes_length. Qed.

Lemma appends_writeFloat32 (v : number) : appends (writeFloat32 v) (layout_float32 v).
Proof. apply appends_write_at_offset, le_bytes_length. Qed.

Lemma appends_writeUint8 (v : number) : appends (writeUint8 v) (layout_uint8 v).
Proof. now apply appends_write_at_offset. Qed.

Lemma writeAscii_signature :
  writeAscii (code_units VMD_SIGNATURE) VMD_HEADER_SIZE
  = write_at_offset signature_field VMD_HEADER_SIZE.
Proof. reflexivity. Qed.

Lemma writeBytes_model_name :
  writeBytes CAMERA_MODEL_NAME_SJIS VMD_MODEL_NAME_SIZE
  = write_at_offset model_name_field VMD_MODEL_NAME_SIZE.
Proof. reflexivity. Qed.

Lemma appends_writeFrame (f : CameraFrame) : appends (writeFrame f) (layout_frame f).
Proof.
  unfold writeFrame, layout_frame.
  repeat (apply appends_bind;
          [first [apply appends_writeUint32 | apply appends_writeFloat32
                 | apply appends_for_of; intros; apply appends_writeUint8]|]).
  apply appends_writeUint8.
Qed.

Lemma appends_writeCameraVmd_body (frames : list CameraFrame) :
  appends (writeCameraVmd_body frames) (layout_file frames).
Proof.
  unfold writeCameraVmd_body, layout_file.
  rewrite writeAscii_signature, writeBytes_model_name.
  apply appends_bind; [now apply appends_write_at_offset|].
  apply appends_bind; [now apply appends_write_at_offset|].
  repeat (apply appends_bind;
          [first [apply appends_writeUint32
                 | apply appends_for_of; intros; apply appends_writeFrame]|]).
  apply appends_writeUint32.
Qed.

Lemma layout_frame_length (f : CameraFrame) :
  length (layout_frame f) = (37 + length (curve f))%nat.
Proof.
  unfold layout_frame, layout_uint32, layout_float32.
  rewrite !length_app, !le_bytes_length.
  assert (H : length (flat_map layout_uint8 (curve f)) = length (curve f)).
  { induction (curve f) as [|c l IH]; simpl; [reflexivity|now rewrite IH]. }
  rewrite H. simpl. lia.
Qed.

Lemma flat_map_layout_frame_length (frames : list CameraFrame) :
  Forall well_typed_frame frames ->
  length (flat_map layout_frame frames) = (61 * length frames)%nat.
Proof.
  induction 1 as [|f l Hf _ IH]; [reflexivity|].
  cbn [flat_map length]. rewrite length_app, layout_frame_length, IH, Hf. lia.
Qed.

Lemma layout_file_length (frames : list CameraFrame) :
  Forall well_typed_frame frames ->
  length (layout_file frames) = (30 + 20 + 24 + 61 * length frames)%nat.
Proof.
  intros H. unfold layout_file, layout_uint32.
  rewrite !length_app, !le_bytes_length, flat_map_layout_frame_length by assumption.
  change (length signature_field) with 30%nat.
  change (length model_name_field) with 20%nat.
  lia.
Qed.

Lemma writeCameraVmd_layout_file (frames : list CameraFrame) :
  Forall well_typed_frame frames ->
  writeCameraVmd frames = inr (layout_file frames).
Proof.
  intros H. unfold writeCameraVmd.
  pose proof (appends_writeCameraVmd_body frames [] 
     (VMD_HEADER_SIZE + VMD_MODEL_NAME_SIZE + VMD_UINT32_SIZE * VMD_COUNT_FIELDS
      + length frames * VMD_CAMERA_FRAME_SIZE)%nat) as Hrun.
  rewrite layout_file_length in Hrun by assumption.
  cbn [app length] in Hrun.
  rewrite Hrun.
  - cbn [uint8]. f_equal.
    replace (_ - _)%nat with 0%nat.
    + apply app_nil_r.
    + unfold VMD_HEADER_SIZE, VMD_MODEL_NAME_SIZE, VMD_UINT32_SIZE, VMD_COUNT_FIELDS, VMD_CAMERA_FRAME_SIZE. lia.
  - unfold VMD_HEADER_SIZE, VMD_MODEL_NAME_SIZE, VMD_UINT32_SIZE, VMD_COUNT_FIELDS, VMD_CAMERA_FRAME_SIZE. lia.
Qed.

(** ** Negation and multiplication of Numbers commute *)

Lemma Prim2SF_inj (x y : number) : Prim2SF x = Prim2SF y -> x = y.
Proof.
  intros H. rewrite <- (SF2Prim_Prim2SF x), <- (SF2Prim_Prim2SF y). now rewrite H.
Qed.

Lemma SFopp_binary_round_aux (s : bool) (m e : Z) (l : location) :
  SFopp (binary_round_aux prec emax s m e l) = binary_round_aux prec emax (negb s) m e l.
Proof.
  unfold binary_round_aux.
  destruct (shr_fexp prec emax m e l) as [mrs' e'].
  destruct (shr_fexp prec emax _ e' loc_Exact) as [mrs'' e''].
  destruct (shr_m mrs''); [reflexivity| |reflexivity].
  destruct (e'' <=? emax - prec); reflexivity.
Qed.

Lemma opp_mul_l (a b : number) : (- a * b = - (a * b))%float.
Proof.
  apply Prim2SF_inj.
  rewrite opp_spec, !mul_spec, opp_spec.
  unfold SF64mul.
  destruct (Prim2SF a) as [sa|sa| |sa ma ea], (Prim2SF b) as [sb|sb| |sb mb eb];
    cbn [SFmul SFopp]; rewrite ?SFopp_binary_round_aux;
    repeat match goal with s : bool |- _ => destruct s end; reflexivity.
Qed.

Lemma opp_mul_mul (a b c : number) : (- a * b * c = - (a * b * c))%float.
Proof. now rewrite !opp_mul_l. Qed.

Section ExportLemmas.

Context {ext : Collaborators}.

Lemma updateWorldMatrix_idempotent (c : Three.PerspectiveCamera) :
  updateWorldMatrix (updateWorldMatrix c) = updateWorldMatrix c.
Proof.
  unfold updateWorldMatrix. destruct c as [? ? ? ? ? [] ? ? ? ? ?]; reflexivity.
Qed.

Lemma updateWorldMatrix_fov (c : Three.PerspectiveCamera) :
  Three.fov (updateWorldMatrix c) = Three.fov c.
Proof.
  unfold updateWorldMatrix. destruct c as [? ? ? ? ? [] ? ? ? ? ?]; reflexivity.
Qed.

Lemma exportVmd_cameraFrame_run (options : option ExportVmdOptions) (this : FspyVmdConverter) :
  fspyData this <> None ->
  exportVmd_cameraFrame options this
  = (inr (frameOf options this), set_camera (updateWorldMatrix (camera this)) this).
Proof.
  intros Hheld.
  destruct this as [c [d|] o]; [clear Hheld|now elim Hheld].
  unfold exportVmd_cameraFrame, call_camera, getWorldPosition, getWorldQuaternion.
  unfold bind, gets, modify, ret.
  cbn [fst snd camera set_camera fspyData converterOptions].
  rewrite updateWorldMatrix_idempotent, updateWorldMatrix_fov.
  destruct options as [op|]; reflexivity.
Qed.

End ExportLemmas.

(** ** The header of a written file *)

Lemma createDefaultCameraCurve_value :
  createDefaultCameraCurve
  = [20; 107; 20; 107; 20; 107; 20; 107; 20; 107; 20; 107;
     20; 107; 20; 107; 20; 107; 20; 107; 20; 107; 20; 107]%float.
Proof. reflexivity. Qed.

Lemma layout_file_split (frames : list CameraFrame) :
  layout_file frames
  = header_before_count
    ++ layout_uint32 (of_Z (Z.of_nat (length frames)))
    ++ flat_map layout_frame frames
    ++ layout_uint32 0%float ++ layout_uint32 0%float ++ layout_uint32 0%float.
Proof. unfold layout_file, header_before_count. now rewrite <- !app_assoc. Qed.

Lemma header_before_count_length : length header_before_count = CAMERA_COUNT_OFFSET.
Proof. vm_compute. reflexivity. Qed.

Lemma layout_file_signature (frames : list CameraFrame) :
  firstn 30 (layout_file frames) = code_units "Vocaloid Motion Data 0002" ++ repeat 0 5%nat.
Proof.
  unfold layout_file. rewrite firstn_app.
  change (30 - length signature_field)%nat with 0%nat.
  rewrite firstn_O, app_nil_r. reflexivity.
Qed.

Lemma layout_file_count (frames : list CameraFrame) :
  Z.of_nat (length frames) < 2 ^ 32 ->
  getUint32 (layout_file frames) CAMERA_COUNT_OFFSET = Z.of_nat (length frames).
Proof.
  intros Hn. unfold getUint32.
  rewrite layout_file_split, skipn_app, header_before_count_length, Nat.sub_diag.
  rewrite skipn_all2 by (rewrite header_before_count_length; lia).
  cbn [skipn app]. rewrite firstn_app.
  unfold layout_uint32 at 1 2. rewrite le_bytes_length, Nat.sub_diag, firstn_O, app_nil_r.
  rewrite <- (le_bytes_length 4 (ToUint32 (of_Z (Z.of_nat (length frames))))) at 1.
  rewrite firstn_all, le_value_le_bytes.
  - now apply ToUint32_of_nat.
  - change (256 ^ Z.of_nat 4) with (2 ^ 32). apply ToUint32_range.
Qed.

Lemma layout_file_byte_at_count (frames : list CameraFrame) :
  nth CAMERA_COUNT_OFFSET (layout_file frames) 0
  = ToUint32 (of_Z (Z.of_nat (length frames))) mod 256.
Proof.
  rewrite layout_file_split, app_nth2 by (rewrite header_before_count_length; lia).
  rewrite header_before_count_length, Nat.sub_diag. reflexivity.
Qed.

Lemma layout_file_morph_count_byte (frames : list CameraFrame) :
  nth 54 (layout_file frames) 0 = 0.
Proof.
  rewrite layout_file_split, app_nth1 by (rewrite header_before_count_length; vm_compute; lia).
  vm_compute. reflexivity.
Qed.

(** C7. For every sequence of N camera frames (each with its 24 curve
    entries, N a JavaScript array length), writeCameraVmd returns a buffer
    of exactly 30 + 20 + 24 + 61 * N bytes, whose first 30 bytes are the
    zero-padded ASCII signature "Vocaloid Motion Data 0002" and whose
    camera-frame count field reads N. *)
Theorem writeCameraVmd_size_signature_count (frames : list CameraFrame) :
  Forall well_typed_frame frames ->
  Z.of_nat (length frames) < 2 ^ 32 ->
  exists buffer,
    writeCameraVmd frames = inr buffer
    /\ length buffer = (30 + 20 + 24 + 61 * length frames)%nat
    /\ firstn 30 buffer = code_units "Vocaloid Motion Data 0002" ++ repeat 0 5%nat
    /\ getUint32 buffer CAMERA_COUNT_OFFSET = Z.of_nat (length frames).
Proof.
  intros Hty Hn. exists (layout_file frames).
  split; [now apply writeCameraVmd_layout_file|].
  split; [now apply layout_file_length|].
  split; [apply layout_file_signature|now apply layout_file_count].
Qed.

Lemma writeCameraVmd_size_signature_count_witness :
  exists buffer,
    writeCameraVmd [Sample.frame0; Sample.frame0] = inr buffer
    /\ length buffer = (30 + 20 + 24 + 61 * 2)%nat
    /\ firstn 30 buffer = code_units "Vocaloid Motion Data 0002" ++ repeat 0 5%nat
    /\ getUint32 buffer CAMERA_COUNT_OFFSET = 2.
Proof.
  apply (writeCameraVmd_size_signature_count [Sample.frame0; Sample.frame0]).
  - repeat constructor.
  - reflexivity.
Defined.

(** C2, as the code has it.  Encoding a single frame yields a buffer of
    exactly 30 + 20 + 24 + 61 = 135 bytes; the camera-frame count is the
    field at offset 58 (after the bone count at 50 and the morph count at
    54): the byte at offset 58 is 1 and the field reads 1, while the byte at
    offset 54 is 0. *)
Theorem single_frame_size_and_count (frame : CameraFrame) :
  well_typed_frame frame ->
  exists buffer,
    writeCameraVmd [frame] = inr buffer
    /\ length buffer = 135%nat
    /\ nth 58 buffer 0 = 1
    /\ getUint32 buffer 58 = 1
    /\ nth 54 buffer 0 = 0.
Proof.
  intros Hty. exists (layout_file [frame]).
  split; [apply writeCameraVmd_layout_file; now constructor|].
  split; [rewrite layout_file_length by (now constructor); reflexivity|].
  split; [apply (layout_file_byte_at_count [frame])|].
  split; [apply (layout_file_count [frame]); reflexivity|].
  apply layout_file_morph_count_byte.
Qed.

Lemma single_frame_size_and_count_witness :
  exists buffer,
    writeCameraVmd [Sample.frame0] = inr buffer
    /\ length buffer = 135%nat
    /\ nth 58 buffer 0 = 1
    /\ getUint32 buffer 58 = 1
    /\ nth 54 buffer 0 = 0.
Proof.
  apply (single_frame_size_and_count Sample.frame0). reflexivity.
Defined.

(** C2, as stated, fails: in the encoding of the default frame with
    frameTime 0 the byte at offset 54 is 0, not 1. *)
Lemma single_frame_byte_54_is_not_the_count :
  ~ (exists buffer,
       writeCameraVmd [Sample.frame0] = inr buffer
       /\ length buffer = 135%nat
       /\ nth 54 buffer 0 = 1).
Proof.
  intros (buffer & Hw & _ & H54).
  rewrite writeCameraVmd_layout_file in Hw by (repeat constructor).
  injection Hw as <-.
  rewrite layout_file_morph_count_byte in H54. discriminate.
Qed.

(** ** exportVmd *)

Section ExportVmd.

Context {ext : Collaborators}.

Lemma exportVmd_run (options : option ExportVmdOptions) (this : FspyVmdConverter) :
  fspyData this <> None ->
  exportVmd options this
  = (inr (layout_file [frameOf options this]),
     set_camera (updateWorldMatrix (camera this)) this).
Proof.
  intros Hheld. unfold exportVmd, bind.
  rewrite exportVmd_cameraFrame_run by assumption.
  unfold liftR. rewrite writeCameraVmd_layout_file; [reflexivity|].
  constructor; [reflexivity|constructor].
Qed.

Lemma frameOf_after_export (options : option ExportVmdOptions) (this : FspyVmdConverter) :
  frameOf options (set_camera (updateWorldMatrix (camera this)) this)
  = frameOf options this.
Proof.
  unfold frameOf, worldPosition, worldQuaternion.
  cbn [camera set_camera converterOptions].
  now rewrite updateWorldMatrix_idempotent, updateWorldMatrix_fov.
Qed.

Lemma exportVmd_not_set (options : option ExportVmdOptions) (this : FspyVmdConverter) :
  fspyData this = None ->
  exportVmd options this
  = (inl (FspyVmdConverterError FSPY_DATA_NOT_SET
            "fSpy data is not set. Call applyFSpyToCamera before exportVmd."),
     this).
Proof.
  intros Hheld. unfold exportVmd, exportVmd_cameraFrame, bind, gets, throw.
  now rewrite Hheld.
Qed.

(** C5. Whatever the camera state and the export options, exportVmd on a
    converter whose held record is null (no calibration was ever applied)
    throws the typed error with code FSPY_DATA_NOT_SET and returns no
    buffer; so does exportVmd on a freshly constructed converter. *)
Theorem exportVmd_before_apply_throws
  (cam : Three.PerspectiveCamera) (copts : RequiredConverterOptions)
  (ctor_options : option FspyVmdConverterOptions)
  (options : option ExportVmdOptions) :
  (exists message,
      fst (exportVmd options (mkConverter cam None copts))
      = inl (FspyVmdConverterError FSPY_DATA_NOT_SET message))
  /\ (exists message,
      fst (exportVmd options (constructor cam ctor_options))
      = inl (FspyVmdConverterError FSPY_DATA_NOT_SET message))
  /\ (forall buffer, fst (exportVmd options (mkConverter cam None copts)) <> inr buffer).
Proof.
  split; [|split].
  - eexists. now rewrite exportVmd_not_set.
  - eexists. now rewrite exportVmd_not_set.
  - intros buffer. now rewrite exportVmd_not_set.
Qed.

(** C10. For every choice of export options, exportVmd on a converter
    that holds a calibration record returns a buffer that encodes exactly
    one camera frame: the buffer is the one writeCameraVmd gives for a
    one-element sequence, it is exactly 135 bytes long and its
    camera-frame count field reads 1. *)
Theorem exportVmd_single_frame (options : option ExportVmdOptions) (this : FspyVmdConverter) :
  fspyData this <> None ->
  exists buffer this',
    exportVmd options this = (inr buffer, this')
    /\ length buffer = 135%nat
    /\ getUint32 buffer CAMERA_COUNT_OFFSET = 1
    /\ exists frame, writeCameraVmd [frame] = inr buffer.
Proof.
  intros Hheld. eexists _, _.
  split; [now apply exportVmd_run|].
  assert (Hty : Forall well_typed_frame [frameOf options this])
    by (constructor; [reflexivity|constructor]).
  split; [now rewrite layout_file_length|].
  split; [apply (layout_file_count [frameOf options this]); reflexivity|].
  exists (frameOf options this). now apply writeCameraVmd_layout_file.
Qed.

(** C4. For every camera world position and target position, the
    distance of the frame that exportVmd encodes is the negated Euclidean
    distance between them, multiplied by distanceMultiplier (1 when
    absent) and by distanceBaseMultiplier (5 when the converter was
    constructed without one): as the code computes it, [-d * m * b], which
    is the Number [-(d * m * b)].  With the camera at (0, 0, 10), the
    target at the origin and the defaults it is -50. *)
Theorem exportVmd_distance (options : option ExportVmdOptions) (this : FspyVmdConverter) :
  fspyData this <> None ->
  exists frame this',
    exportVmd_cameraFrame options this = (inr frame, this')
    /\ exportVmd options this = (writeCameraVmd [frame], this')
    /\ (let camPos := worldPosition (camera this) in
        let t := nullish (match options with Some o => opt_target o | None => None end)
                         (0, 0, 0)%float in
        let target := Three.mkVector3 (at0 t) (at1 t) (at2 t) in
        let m := nullish (match options with
                          | Some o => opt_distanceMultiplier o
                          | None => None
                          end) 1%float in
        let b := distanceBaseMultiplier (converterOptions this) in
        distance frame = (- Three.distanceTo camPos target * m * b)%float
        /\ distance frame = (- (Three.distanceTo camPos target * m * b))%float)
    /\ (worldPosition (camera this) = Three.mkVector3 0%float 0%float 10%float ->
        options = None ->
        distanceBaseMultiplier (converterOptions this) = DISTANCE_BASE_MULTIPLIER ->
        distance frame = (-50)%float)
    /\ (forall cam ctor_options,
           distanceBaseMultiplier (converterOptions (constructor cam ctor_options))
           = nullish (match ctor_options with
                      | Some o => opt_distanceBaseMultiplier o
                      | None => None
                      end) 5%float).
Proof.
  intros Hheld. exists (frameOf options this), (set_camera (updateWorldMatrix (camera this)) this).
  split; [now apply exportVmd_cameraFrame_run|].
  split.
  { rewrite exportVmd_run by assumption.
    rewrite writeCameraVmd_layout_file; [reflexivity|].
    constructor; [reflexivity|constructor]. }
  split.
  - cbn zeta. split; [reflexivity|]. cbn [frameOf distance]. apply opp_mul_mul.
  - split; [|reflexivity].
    intros Hpos -> Hbase. cbn [frameOf distance]. rewrite Hpos, Hbase. reflexivity.
Qed.

(** C8. In the frame that exportVmd encodes, the rotation is the Y-X-Z
    Euler decomposition of the camera's world orientation with only its Z
    component negated: X and Y are passed through unchanged. *)
Theorem exportVmd_rotation (options : option ExportVmdOptions) (this : FspyVmdConverter) :
  fspyData this <> None ->
  exists frame this',
    exportVmd_cameraFrame options this = (inr frame, this')
    /\ exportVmd options this = (writeCameraVmd [frame], this')
    /\ (let euler := setFromQuaternion (worldQuaternion (camera this)) Three.YXZ in
        at0 (rotation frame) = Three.ex euler
        /\ at1 (rotation frame) = Three.ey euler
        /\ at2 (rotation frame) = (- Three.ez euler)%float).
Proof.
  intros Hheld. exists (frameOf options this), (set_camera (updateWorldMatrix (camera this)) this).
  split; [now apply exportVmd_cameraFrame_run|].
  split.
  { rewrite exportVmd_run by assumption.
    rewrite writeCameraVmd_layout_file; [reflexivity|].
    constructor; [reflexivity|constructor]. }
  cbn zeta. repeat split.
Qed.

(** C9. Export is deterministic and leaves nothing behind that a second
    export could see: a second call with the same options, made in the
    state the first call left, has the same outcome (the same bytes, or
    the same error) and leaves that state as it is; the outcome depends on
    the converter only through the camera, the converter options and
    whether a record is held; and what the writer returns is a function of
    the frame sequence alone: the concatenation of the fields of the
    format. *)
Theorem exportVmd_deterministic (options : option ExportVmdOptions) (this : FspyVmdConverter) :
  (forall r this', exportVmd options this = (r, this') ->
                   exportVmd options this' = (r, this'))
  /\ (forall other,
         camera other = camera this ->
         converterOptions other = converterOptions this ->
         (fspyData other = None <-> fspyData this = None) ->
         fst (exportVmd options other) = fst (exportVmd options this))
  /\ (forall frames,
         Forall well_typed_frame frames ->
         writeCameraVmd frames = inr (layout_file frames)).
Proof.
  split; [|split; [|exact writeCameraVmd_layout_file]].
  - intros r this' Hrun.
    destruct (fspyData this) as [d|] eqn:Hd.
    + rewrite exportVmd_run in Hrun by congruence.
      injection Hrun as <- <-.
      rewrite exportVmd_run by (cbn [set_camera fspyData]; congruence).
      rewrite frameOf_after_export.
      cbn [set_camera camera fspyData converterOptions].
      now rewrite updateWorldMatrix_idempotent.
    + rewrite exportVmd_not_set in Hrun by assumption.
      injection Hrun as <- <-. now apply exportVmd_not_set.
  - intros other Hc Ho Hh.
    destruct (fspyData this) as [d|] eqn:Hd.
    + assert (Hd' : fspyData other <> None) by (intros E; apply Hh in E; discriminate).
      rewrite !exportVmd_run by congruence.
      cbn [fst]. unfold frameOf. now rewrite Hc, Ho.
    + rewrite !exportVmd_not_set; [reflexivity|assumption|now apply Hh].
Qed.

End ExportVmd.

Lemma exportVmd_single_frame_witness :
  exists buffer this',
    exportVmd (ext := Sample.env) None
      (set_fspyData (Some (Sample.fspy_with Sample.rows_z10))
                    (constructor Sample.camera0 None))
    = (inr buffer, this')
    /\ length buffer = 135%nat
    /\ getUint32 buffer CAMERA_COUNT_OFFSET = 1
    /\ exists frame, writeCameraVmd [frame] = inr buffer.
Proof.
  apply (exportVmd_single_frame (ext := Sample.env)). discriminate.
Defined.

(** ** matrixFromFSpyRows *)

Lemma existsb_false_Forall {A} (f : A -> bool) (l : list A) :
  existsb f l = false -> Forall (fun a => f a = false) l.
Proof.
  induction l as [|a l IH]; cbn [existsb]; intros H; constructor.
  - now apply orb_false_elim in H.
  - apply IH. now apply orb_false_elim in H.
Qed.

Lemma shape_test_false (rows : list (list (option number))) :
  negb (length rows =? MATRIX_SIZE)%nat
  || existsb (fun row => negb (length row =? MATRIX_SIZE)%nat) rows = false ->
  is_4x4 rows.
Proof.
  intros H. apply orb_false_elim in H as [Hlen Hrows]. split.
  - apply negb_false_iff, Nat.eqb_eq in Hlen. exact Hlen.
  - apply existsb_false_Forall in Hrows.
    eapply Forall_impl; [|exact Hrows].
    intros row Hrow. cbn beta in Hrow.
    now apply negb_false_iff, Nat.eqb_eq in Hrow.
Qed.

Lemma shape_test_true (rows : list (list (option number))) :
  is_4x4 rows ->
  negb (length rows =? MATRIX_SIZE)%nat
  || existsb (fun row => negb (length row =? MATRIX_SIZE)%nat) rows = false.
Proof.
  intros [Hlen Hrows]. apply orb_false_intro.
  - apply negb_false_iff, Nat.eqb_eq. exact Hlen.
  - clear Hlen. induction Hrows as [|row l Hrow _ IH]; [reflexivity|].
    cbn [existsb]. rewrite IH, orb_false_r.
    apply negb_false_iff, Nat.eqb_eq. exact Hrow.
Qed.

Lemma matrixFromFSpyRows_not_4x4 (rows : list (list (option number))) :
  ~ is_4x4 rows -> matrixFromFSpyRows rows = inl ROWS_SIZE_ERROR.
Proof.
  intros H. unfold matrixFromFSpyRows.
  destruct (negb _ || existsb _ rows) eqn:E; [reflexivity|].
  now apply shape_test_false in E.
Qed.

Lemma is_4x4_inv (rows : list (list (option number))) :
  is_4x4 rows ->
  exists a0 a1 a2 a3 b0 b1 b2 b3 c0 c1 c2 c3 d0 d1 d2 d3,
    rows = [[a0; a1; a2; a3]; [b0; b1; b2; b3]; [c0; c1; c2; c3]; [d0; d1; d2; d3]].
Proof.
  intros [Hlen Hrows].
  destruct rows as [|ra [|rb [|rc [|rd [|re rows]]]]]; try discriminate Hlen.
  apply Forall_cons_iff in Hrows as [Ha Hrows].
  apply Forall_cons_iff in Hrows as [Hb Hrows].
  apply Forall_cons_iff in Hrows as [Hc Hrows].
  apply Forall_cons_iff in Hrows as [Hd _].
  destruct ra as [|a0 [|a1 [|a2 [|a3 [|a4 ra]]]]]; try discriminate Ha.
  destruct rb as [|b0 [|b1 [|b2 [|b3 [|b4 rb]]]]]; try discriminate Hb.
  destruct rc as [|c0 [|c1 [|c2 [|c3 [|c4 rc]]]]]; try discriminate Hc.
  destruct rd as [|d0 [|d1 [|d2 [|d3 [|d4 rd]]]]]; try discriminate Hd.
  now exists a0, a1, a2, a3, b0, b1, b2, b3, c0, c1, c2, c3, d0, d1, d2, d3.
Qed.

(** On a 4x4 input the loops stop with the value error at the first
    undefined entry, and otherwise fill the transposed array. *)
Lemma matrixFromFSpyRows_4x4 (rows : list (list (option number))) :
  is_4x4 rows ->
  matrixFromFSpyRows rows
  = if has_undefined rows then inl VALUE_ERROR else inr (columnMajor rows).
Proof.
  intros H.
  destruct (is_4x4_inv rows H)
    as (a0 & a1 & a2 & a3 & b0 & b1 & b2 & b3 & c0 & c1 & c2 & c3 & d0 & d1 & d2 & d3 & ->).
  clear H.
  destruct a0; [|reflexivity]. destruct a1; [|reflexivity].
  destruct a2; [|reflexivity]. destruct a3; [|reflexivity].
  destruct b0; [|reflexivity]. destruct b1; [|reflexivity].
  destruct b2; [|reflexivity]. destruct b3; [|reflexivity].
  destruct c0; [|reflexivity]. destruct c1; [|reflexivity].
  destruct c2; [|reflexivity]. destruct c3; [|reflexivity].
  destruct d0; [|reflexivity]. destruct d1; [|reflexivity].
  destruct d2; [|reflexivity]. destruct d3; [|reflexivity].
  reflexivity.
Qed.

Lemma has_undefined_entry (rows : list (list (option number))) (r c : nat) :
  is_4x4 rows -> (r < 4)%nat -> (c < 4)%nat -> entry rows r c = None ->
  has_undefined rows = true.
Proof.
  intros [Hlen Hrows] Hr Hc He. unfold entry in He.
  destruct (nth_error rows r) as [row|] eqn:Hrow.
  2:{ apply nth_error_None in Hrow. lia. }
  assert (Hin : In row rows) by (eapply nth_error_In; eassumption).
  assert (Hl : length row = 4%nat) by (rewrite Forall_forall in Hrows; now apply Hrows).
  destruct (nth_error row c) as [v|] eqn:Hv.
  2:{ apply nth_error_None in Hv. lia. }
  subst v. apply existsb_exists. exists row. split; [assumption|].
  apply existsb_exists. exists None. split; [|reflexivity].
  eapply nth_error_In; eassumption.
Qed.

Lemma has_undefined_false (rows : list (list (option number))) :
  is_4x4 rows ->
  (forall r c, (r < 4)%nat -> (c < 4)%nat -> entry rows r c <> None) ->
  has_undefined rows = false.
Proof.
  intros [Hlen Hrows] Hdef.
  destruct (has_undefined rows) eqn:E; [exfalso|reflexivity].
  apply existsb_exists in E as (row & Hin & E).
  apply existsb_exists in E as (v & Hv & E).
  destruct v; [discriminate|].
  apply In_nth_error in Hin as (r & Hr).
  apply In_nth_error in Hv as (c & Hc).
  assert (Hl : length row = 4%nat).
  { rewrite Forall_forall in Hrows. apply Hrows. eapply nth_error_In; eassumption. }
  apply (Hdef r c).
  - rewrite <- Hlen. apply nth_error_Some. now rewrite Hr.
  - rewrite <- Hl. apply nth_error_Some. now rewrite Hc.
  - unfold entry. now rewrite Hr, Hc.
Qed.

Lemma matrixFromFSpyRows_errors (rows : list (list (option number))) (e : Exception) :
  matrixFromFSpyRows rows = inl e -> e = ROWS_SIZE_ERROR \/ e = VALUE_ERROR.
Proof.
  intros H.
  destruct (negb (length rows =? MATRIX_SIZE)%nat
            || existsb (fun row => negb (length row =? MATRIX_SIZE)%nat) rows) eqn:E.
  - left. unfold matrixFromFSpyRows in H. rewrite E in H. now injection H as <-.
  - right. apply shape_test_false in E.
    rewrite matrixFromFSpyRows_4x4 in H by assumption.
    destruct (has_undefined rows); [now injection H as <-|discriminate].
Qed.

(** ** applyFSpyToCamera *)

Section Apply.

Context {ext : Collaborators}.

Lemma applyFSpyToCamera_run (fspy : FspyData) (opts : option ApplyFSpyToCameraOptions)
      (this : FspyVmdConverter) :
  applyFSpyToCamera fspy opts this
  = match matrixFromFSpyRows (rows (cameraTransform fspy)) with
    | inl e =>
        (inl e,
         mkConverter (camera_before_matrix fspy opts (camera this))
                     (Some (cloneFspyData fspy)) (converterOptions this))
    | inr camWorld =>
        (inr tt,
         mkConverter
           (updateMatrixWorld_true
              (updateMatrix
                 (matrixWorld_decompose
                    (matrixWorld_copy camWorld
                       (Three.set_matrixAutoUpdate false
                          (camera_before_matrix fspy opts (camera this)))))))
           (Some (cloneFspyData fspy)) (converterOptions this))
    end.
Proof.
  unfold applyFSpyToCamera, bind, modify, on_camera, liftR.
  destruct (matrixFromFSpyRows (rows (cameraTransform fspy))); reflexivity.
Qed.

(** C1, as the code has it.  When applyFSpyToCamera throws, the error is
    one of the two matrix errors, and the camera's world matrix, local
    matrix, position, quaternion, scale and matrixAutoUpdate, and the
    converter options, are as they were before the call; the held record
    has already been replaced by a copy of the argument, and fov, aspect,
    near and far have already been assigned and the projection matrix
    recomputed. *)
Theorem applyFSpyToCamera_failure_state
        (fspy : FspyData) (opts : option ApplyFSpyToCameraOptions)
        (this this' : FspyVmdConverter) (e : Exception) :
  applyFSpyToCamera fspy opts this = (inl e, this') ->
  (e = ROWS_SIZE_ERROR \/ e = VALUE_ERROR)
  /\ (Three.matrixWorld (camera this') = Three.matrixWorld (camera this)
      /\ Three.matrix (camera this') = Three.matrix (camera this)
      /\ Three.position (camera this') = Three.position (camera this)
      /\ Three.quaternion (camera this') = Three.quaternion (camera this)
      /\ Three.scale (camera this') = Three.scale (camera this)
      /\ Three.matrixAutoUpdate (camera this') = Three.matrixAutoUpdate (camera this)
      /\ converterOptions this' = converterOptions this)
  /\ (fspyData this' = Some (cloneFspyData fspy)
      /\ Three.fov (camera this') = radToDeg (verticalFieldOfView fspy)
      /\ Three.aspect (camera this') = (imageWidth fspy / imageHeight fspy)%float
      /\ Three.near (camera this')
         = nullish (match opts with Some o => opt_near o | None => None end) DEFAULT_NEAR
      /\ Three.far (camera this')
         = nullish (match opts with Some o => opt_far o | None => None end) DEFAULT_FAR
      /\ Three.projectionMatrix (camera this')
         = makePerspective (Three.fov (camera this')) (Three.aspect (camera this'))
                           (Three.near (camera this')) (Three.far (camera this'))).
Proof.
  intros Hrun. rewrite applyFSpyToCamera_run in Hrun.
  destruct (matrixFromFSpyRows (rows (cameraTransform fspy))) as [e'|m] eqn:Hm;
    [|discriminate].
  injection Hrun as <- <-.
  split; [now apply matrixFromFSpyRows_errors in Hm|].
  split; repeat split.
Qed.

(** C6. Matrix validation in applyFSpyToCamera: when the rows are not
    exactly four, or some row has not exactly four entries, the call
    throws INVALID_CAMERA_TRANSFORM_ROWS_SIZE; when the rows are 4x4 and
    some entry is undefined, it throws INVALID_CAMERA_TRANSFORM_VALUE.  In
    both cases matrixFromFSpyRows returns no matrix, and the camera's
    matrices are the ones it had before the call. *)
Theorem applyFSpyToCamera_validation
        (fspy : FspyData) (opts : option ApplyFSpyToCameraOptions)
        (this : FspyVmdConverter) (code : FspyVmdConverterErrorCode) :
  let rs := rows (cameraTransform fspy) in
  ((length rs <> 4%nat \/ Exists (fun row => length row <> 4%nat) rs)
   /\ code = INVALID_CAMERA_TRANSFORM_ROWS_SIZE)
  \/ (is_4x4 rs
      /\ (exists r c, (r < 4)%nat /\ (c < 4)%nat /\ entry rs r c = None)
      /\ code = INVALID_CAMERA_TRANSFORM_VALUE) ->
  exists message this',
    applyFSpyToCamera fspy opts this = (inl (FspyVmdConverterError code message), this')
    /\ matrixFromFSpyRows rs = inl (FspyVmdConverterError code message)
    /\ Three.matrixWorld (camera this') = Three.matrixWorld (camera this)
    /\ Three.matrix (camera this') = Three.matrix (camera this).
Proof.
  intros rs H.
  assert (Hm : exists message, matrixFromFSpyRows rs = inl (FspyVmdConverterError code message)).
  { destruct H as [[Hshape ->]|(H4 & (r & c & Hr & Hc & He) & ->)].
    - eexists. apply matrixFromFSpyRows_not_4x4.
      intros [Hlen Hrows]. destruct Hshape as [Hne|Hex]; [contradiction|].
      apply Exists_exists in Hex as (row & Hin & Hne).
      rewrite Forall_forall in Hrows. now apply Hne, Hrows.
    - eexists. rewrite matrixFromFSpyRows_4x4 by assumption.
      now rewrite (has_undefined_entry rs r c). }
  destruct Hm as [message Hm]. exists message. eexists.
  rewrite applyFSpyToCamera_run. fold rs. rewrite Hm.
  repeat split.
Qed.

End Apply.

Lemma columnMajor_transpose (rs : list (list (option number))) :
  is_4x4 rs ->
  (forall r c, (r < 4)%nat -> (c < 4)%nat -> entry rs r c <> None) ->
  length (columnMajor rs) = 16%nat
  /\ (forall r c, (r < 4)%nat -> (c < 4)%nat ->
                  nth_error (columnMajor rs) (c * 4 + r) = entry rs r c)
  /\ rowsFromColumnMajor (columnMajor rs) = rs.
Proof.
  intros H4 Hdef.
  split; [reflexivity|].
  destruct (is_4x4_inv rs H4)
    as (a0 & a1 & a2 & a3 & b0 & b1 & b2 & b3 & c0 & c1 & c2 & c3 & d0 & d1 & d2 & d3 & ->).
  pose proof (Hdef 0%nat 0%nat ltac:(lia) ltac:(lia)) as H00.
  pose proof (Hdef 0%nat 1%nat ltac:(lia) ltac:(lia)) as H01.
  pose proof (Hdef 0%nat 2%nat ltac:(lia) ltac:(lia)) as H02.
  pose proof (Hdef 0%nat 3%nat ltac:(lia) ltac:(lia)) as H03.
  pose proof (Hdef 1%nat 0%nat ltac:(lia) ltac:(lia)) as H10.
  pose proof (Hdef 1%nat 1%nat ltac:(lia) ltac:(lia)) as H11.
  pose proof (Hdef 1%nat 2%nat ltac:(lia) ltac:(lia)) as H12.
  pose proof (Hdef 1%nat 3%nat ltac:(lia) ltac:(lia)) as H13.
  pose proof (Hdef 2%nat 0%nat ltac:(lia) ltac:(lia)) as H20.
  pose proof (Hdef 2%nat 1%nat ltac:(lia) ltac:(lia)) as H21.
  pose proof (Hdef 2%nat 2%nat ltac:(lia) ltac:(lia)) as H22.
  pose proof (Hdef 2%nat 3%nat ltac:(lia) ltac:(lia)) as H23.
  pose proof (Hdef 3%nat 0%nat ltac:(lia) ltac:(lia)) as H30.
  pose proof (Hdef 3%nat 1%nat ltac:(lia) ltac:(lia)) as H31.
  pose proof (Hdef 3%nat 2%nat ltac:(lia) ltac:(lia)) as H32.
  pose proof (Hdef 3%nat 3%nat ltac:(lia) ltac:(lia)) as H33.
  cbn [entry nth_error] in *.
  clear Hdef H4.
  destruct a0, a1, a2, a3; try congruence.
  destruct b0, b1, b2, b3; try congruence.
  destruct c0, c1, c2, c3; try congruence.
  destruct d0, d1, d2, d3; try congruence.
  split; [|reflexivity].
  intros r c Hr Hc.
  destruct r as [|[|[|[|r]]]]; try lia;
    destruct c as [|[|[|[|c]]]]; try lia; reflexivity.
Qed.

(** C3. For every 4x4 row-major matrix, the conversion that
    applyFSpyToCamera uses, matrixFromFSpyRows, stores [rows[row][col]] at
    index [col * 4 + row] of the 16 elements (a storage transpose into
    column-major order), and the re-transposition of the result is the
    original matrix, entry for entry. *)
Theorem matrixFromFSpyRows_transpose_round_trip (rs : list (list (option number))) :
  is_4x4 rs ->
  (forall r c, (r < 4)%nat -> (c < 4)%nat -> entry rs r c <> None) ->
  exists m,
    matrixFromFSpyRows rs = inr m
    /\ length m = 16%nat
    /\ (forall r c, (r < 4)%nat -> (c < 4)%nat -> nth_error m (c * 4 + r) = entry rs r c)
    /\ rowsFromColumnMajor m = rs
    /\ (forall (ext : Collaborators) fspy opts this,
           rows (cameraTransform fspy) = rs ->
           applyFSpyToCamera fspy opts this
           = (inr tt,
              mkConverter
                (updateMatrixWorld_true
                   (updateMatrix
                      (matrixWorld_decompose
                         (matrixWorld_copy m
                            (Three.set_matrixAutoUpdate false
                               (camera_before_matrix fspy opts (camera this)))))))
                (Some (cloneFspyData fspy)) (converterOptions this))).
Proof.
  intros H4 Hdef. exists (columnMajor rs).
  assert (Hm : matrixFromFSpyRows rs = inr (columnMajor rs)).
  { rewrite matrixFromFSpyRows_4x4 by assumption.
    now rewrite has_undefined_false. }
  destruct (columnMajor_transpose rs H4 Hdef) as (Hlen & Hel & Hback).
  repeat split; try assumption.
  intros ext fspy opts this Hrows.
  now rewrite applyFSpyToCamera_run, Hrows, Hm.
Qed.

Lemma matrixFromFSpyRows_transpose_round_trip_witness :
  exists m,
    matrixFromFSpyRows Sample.rows_z10 = inr m
    /\ length m = 16%nat
    /\ (forall r c, (r < 4)%nat -> (c < 4)%nat ->
                    nth_error m (c * 4 + r) = entry Sample.rows_z10 r c)
    /\ rowsFromColumnMajor m = Sample.rows_z10.
Proof.
  destruct (matrixFromFSpyRows_transpose_round_trip Sample.rows_z10)
    as (m & Hm & Hlen & Hel & Hback & _).
  - split; [reflexivity|]. repeat constructor.
  - intros r c Hr Hc.
    destruct r as [|[|[|[|r]]]]; try lia;
      destruct c as [|[|[|[|c]]]]; try lia; discriminate.
  - now exists m.
Defined.

(** ** The properties at sample inputs *)

Example converter_z10_camera :
  worldPosition (ext := Sample.env) (camera Sample.converter_z10)
  = Three.mkVector3 0%float 0%float 10%float
  /\ Three.matrixAutoUpdate (camera Sample.converter_z10) = false
  /\ Three.fov (camera Sample.converter_z10) = radToDeg 0.5%float.
Proof. repeat split. Qed.

(** C1, as stated, fails: applying a calibration whose transform has
    three rows to a fresh converter throws, and leaves the held record set
    (it was null) and fov, aspect and near changed. *)
Lemma applyFSpyToCamera_failure_mutates :
  exists e this',
    applyFSpyToCamera (ext := Sample.env) (Sample.fspy_with Sample.rows_3) None Sample.converter0
    = (inl e, this')
    /\ fspyData Sample.converter0 = None
    /\ fspyData this' = Some (Sample.fspy_with Sample.rows_3)
    /\ Three.fov (camera Sample.converter0) = 75%float
    /\ Three.fov (camera this') = 0x1.ca5dc1a63c1f8p+4%float
    /\ Three.fov (camera this') <> Three.fov (camera Sample.converter0)
    /\ Three.aspect (camera this') <> Three.aspect (camera Sample.converter0)
    /\ Three.near (camera this') <> Three.near (camera Sample.converter0)
    /\ this' <> Sample.converter0.
Proof.
  eexists _, _. split; [reflexivity|].
  repeat split.
  - intros E. apply (f_equal (fun v => PrimFloat.eqb v 75%float)) in E. discriminate E.
  - intros E. apply (f_equal (fun v => PrimFloat.eqb v 1.5%float)) in E. discriminate E.
  - intros E. apply (f_equal (fun v => PrimFloat.eqb v 0.1%float)) in E. discriminate E.
  - intros E. apply (f_equal fspyData) in E. discriminate E.
Qed.

Lemma applyFSpyToCamera_failure_state_witness :
  applyFSpyToCamera (ext := Sample.env) (Sample.fspy_with Sample.rows_hole) None
                    Sample.converter_z10
  = (inl VALUE_ERROR,
     mkConverter
       (camera_before_matrix (ext := Sample.env) (Sample.fspy_with Sample.rows_hole) None
                             (camera Sample.converter_z10))
       (Some (Sample.fspy_with Sample.rows_hole))
       (converterOptions Sample.converter_z10))
  /\ Three.matrixWorld
       (camera_before_matrix (ext := Sample.env) (Sample.fspy_with Sample.rows_hole) None
                             (camera Sample.converter_z10))
     = Three.matrixWorld (camera Sample.converter_z10).
Proof.
  assert (Hrun : applyFSpyToCamera (ext := Sample.env) (Sample.fspy_with Sample.rows_hole)
                   None Sample.converter_z10
                 = (inl VALUE_ERROR,
                    mkConverter
                      (camera_before_matrix (ext := Sample.env)
                         (Sample.fspy_with Sample.rows_hole) None
                         (camera Sample.converter_z10))
                      (Some (Sample.fspy_with Sample.rows_hole))
                      (converterOptions Sample.converter_z10))) by reflexivity.
  split; [exact Hrun|].
  exact (proj1 (proj1 (proj2 (applyFSpyToCamera_failure_state (ext := Sample.env)
                                _ _ _ _ _ Hrun)))).
Defined.

Lemma applyFSpyToCamera_validation_witness :
  (exists message this',
      applyFSpyToCamera (ext := Sample.env) (Sample.fspy_with Sample.rows_3) None
                        Sample.converter0
      = (inl (FspyVmdConverterError INVALID_CAMERA_TRANSFORM_ROWS_SIZE message), this')
      /\ matrixFromFSpyRows Sample.rows_3
         = inl (FspyVmdConverterError INVALID_CAMERA_TRANSFORM_ROWS_SIZE message)
      /\ Three.matrixWorld (camera this') = Three.matrixWorld (camera Sample.converter0)
      /\ Three.matrix (camera this') = Three.matrix (camera Sample.converter0))
  /\ (exists message this',
      applyFSpyToCamera (ext := Sample.env) (Sample.fspy_with Sample.rows_short) None
                        Sample.converter0
      = (inl (FspyVmdConverterError INVALID_CAMERA_TRANSFORM_ROWS_SIZE message), this')
      /\ matrixFromFSpyRows Sample.rows_short
         = inl (FspyVmdConverterError INVALID_CAMERA_TRANSFORM_ROWS_SIZE message)
      /\ Three.matrixWorld (camera this') = Three.matrixWorld (camera Sample.converter0)
      /\ Three.matrix (camera this') = Three.matrix (camera Sample.converter0))
  /\ (exists message this',
      applyFSpyToCamera (ext := Sample.env) (Sample.fspy_with Sample.rows_hole) None
                        Sample.converter0
      = (inl (FspyVmdConverterError INVALID_CAMERA_TRANSFORM_VALUE message), this')
      /\ matrixFromFSpyRows Sample.rows_hole
         = inl (FspyVmdConverterError INVALID_CAMERA_TRANSFORM_VALUE message)
      /\ Three.matrixWorld (camera this') = Three.matrixWorld (camera Sample.converter0)
      /\ Three.matrix (camera this') = Three.matrix (camera Sample.converter0)).
Proof.
  split; [|split].
  - apply (applyFSpyToCamera_validation (ext := Sample.env) (Sample.fspy_with Sample.rows_3)).
    left. split; [|reflexivity]. left. discriminate.
  - apply (applyFSpyToCamera_validation (ext := Sample.env) (Sample.fspy_with Sample.rows_short)).
    left. split; [|reflexivity]. right.
    apply Exists_cons_tl, Exists_cons_hd. discriminate.
  - apply (applyFSpyToCamera_validation (ext := Sample.env) (Sample.fspy_with Sample.rows_hole)).
    right. split; [|split; [|reflexivity]].
    + split; [reflexivity|]. repeat constructor.
    + exists 1%nat, 1%nat. repeat split; lia.
Defined.

Lemma exportVmd_distance_witness :
  fspyData Sample.converter_z10 <> None
  /\ exists frame this',
      exportVmd_cameraFrame (ext := Sample.env) None Sample.converter_z10 = (inr frame, this')
      /\ distance frame = (-50)%float.
Proof.
  assert (Hheld : fspyData Sample.converter_z10 <> None) by discriminate.
  split; [exact Hheld|].
  destruct (exportVmd_distance (ext := Sample.env) None Sample.converter_z10 Hheld)
    as (frame & this' & Hframe & _ & _ & H50 & _).
  exists frame, this'. split; [exact Hframe|].
  apply H50; reflexivity.
Defined.

Lemma exportVmd_rotation_witness :
  fspyData Sample.converter_z10 <> None
  /\ exists frame this',
      exportVmd_cameraFrame (ext := Sample.env) None Sample.converter_z10 = (inr frame, this')
      /\ exportVmd (ext := Sample.env) None Sample.converter_z10
         = (writeCameraVmd [frame], this')
      /\ at2 (rotation frame)
         = (- Three.ez (setFromQuaternion (Collaborators := Sample.env)
                          (worldQuaternion (ext := Sample.env) (camera Sample.converter_z10))
                          Three.YXZ))%float.
Proof.
  assert (Hheld : fspyData Sample.converter_z10 <> None) by discriminate.
  split; [exact Hheld|].
  destruct (exportVmd_rotation (ext := Sample.env) None Sample.converter_z10 Hheld)
    as (frame & this' & Hframe & Hrun & _ & _ & Hz).
  exists frame, this'. repeat split; assumption.
Defined.

(** The whole pipeline on the sample: the calibration [rows_z10] applied to
    [camera0], then exported with no options.  The frame starts at offset
    62: frame index 0, distance -50 (binary32 [0xC2480000]), target zero,
    rotation (0, 0, -0), the default curve, view angle 29 (fov 28.6479
    rounded), perspective. *)
Example exportVmd_sample_bytes :
  fst (exportVmd (ext := Sample.env) None Sample.converter_z10)
  = inr ([86; 111; 99; 97; 108; 111; 105; 100; 32; 77; 111; 116; 105; 111; 110;
          32; 68; 97; 116; 97; 32; 48; 48; 48; 50; 0; 0; 0; 0; 0]
         ++ [0x83; 0x4a; 0x83; 0x81; 0x83; 0x89; 0x81; 0x45; 0x8f; 0xc6; 0x96; 0xbe;
             0; 0; 0; 0; 0; 0; 0; 0]
         ++ [0; 0; 0; 0] ++ [0; 0; 0; 0] ++ [1; 0; 0; 0]
         ++ [0; 0; 0; 0] ++ [0; 0; 0x48; 0xC2]
         ++ [0; 0; 0; 0; 0; 0; 0; 0; 0; 0; 0; 0]
         ++ [0; 0; 0; 0; 0; 0; 0; 0; 0; 0; 0; 0x80]
         ++ [20; 107; 20; 107; 20; 107; 20; 107; 20; 107; 20; 107;
             20; 107; 20; 107; 20; 107; 20; 107; 20; 107; 20; 107]
         ++ [29; 0; 0; 0] ++ [0]
         ++ [0; 0; 0; 0] ++ [0; 0; 0; 0] ++ [0; 0; 0; 0]).
Proof. vm_compute. reflexivity. Qed.

(** Every byte of a written file is a byte. *)
Lemma le_bytes_range (n : nat) (v : Z) : Forall (fun b => 0 <= b < 256) (le_bytes n v).
Proof.
  revert v; induction n as [|n IH]; intros v; cbn [le_bytes]; constructor.
  - apply Z.mod_pos_bound. lia.
  - apply IH.
Qed.

Lemma layout_uint8_range (v : number) : Forall (fun b => 0 <= b < 256) (layout_uint8 v).
Proof. repeat constructor; unfold ToUint8; apply Z.mod_pos_bound; lia. Qed.

Lemma flat_map_range {A} (enc : A -> list Z) (l : list A) :
  (forall a, Forall (fun b => 0 <= b < 256) (enc a)) ->
  Forall (fun b => 0 <= b < 256) (flat_map enc l).
Proof.
  intros H. induction l as [|a l IH]; cbn [flat_map]; [constructor|].
  apply Forall_app. split; [apply H|exact IH].
Qed.

Lemma layout_frame_range (f : CameraFrame) : Forall (fun b => 0 <= b < 256) (layout_frame f).
Proof.
  unfold layout_frame, layout_uint32, layout_float32.
  rewrite !Forall_app.
  repeat split;
    first [apply le_bytes_range | apply layout_uint8_range
          | apply flat_map_range, layout_uint8_range].
Qed.

Lemma layout_file_range (frames : list CameraFrame) :
  Forall (fun b => 0 <= b < 256) (layout_file frames).
Proof.
  assert (Hsig : Forall (fun b => 0 <= b < 256) signature_field)
    by (vm_compute; repeat constructor; discriminate).
  assert (Hname : Forall (fun b => 0 <= b < 256) model_name_field)
    by (vm_compute; repeat constructor; discriminate).
  unfold layout_file, layout_uint32.
  rewrite !Forall_app.
  repeat split;
    first [assumption | apply le_bytes_range | apply flat_map_range, layout_frame_range].
Qed.

(* ================================================================= *)
(** * Further properties of the code *)

(** ** The writer: bounds, offsets, fixed fields *)

Lemma writes_write_at_offset (bytes : list Z) (n : nat) :
  length bytes = n -> writes (write_at_offset bytes n) bytes.
Proof.
  intros Hn pre k. split.
  - now apply appends_write_at_offset.
  - intros Hk. unfold write_at_offset, TypedArray_set. cbn [uint8 offset].
    rewrite length_app, repeat_length.
    destruct (Nat.leb_spec (length pre + length bytes) (length pre + k)); [lia|reflexivity].
Qed.

Lemma writes_ret : writes (ret tt) [].
Proof.
  intros pre k. split.
  - now apply appends_ret.
  - cbn [length]. lia.
Qed.

Lemma writes_bind (m1 : St Writer unit) (m2 : unit -> St Writer unit) (b1 b2 : list Z) :
  writes m1 b1 -> writes (m2 tt) b2 -> writes (bind m1 m2) (b1 ++ b2).
Proof.
  intros H1 H2 pre k. split.
  - apply appends_bind; intros p j Hj; [now apply H1|now apply H2].
  - rewrite length_app. intros Hk. unfold bind.
    destruct (Nat.le_gt_cases (length b1) k) as [Hfit|Hover].
    + rewrite (proj1 (H1 pre k) Hfit).
      apply (proj2 (H2 (pre ++ b1) (k - length b1)%nat)). lia.
    + pose proof (proj2 (H1 pre k) Hover) as Hfail.
      destruct (m1 _) as [[e|[]] s']; cbn [fst] in *; [exact Hfail|discriminate].
Qed.

Lemma writes_for_of {A} (body : A -> St Writer unit) (enc : A -> list Z) (l : list A) :
  (forall a, writes (body a) (enc a)) ->
  writes (for_of l body) (flat_map enc l).
Proof.
  intros H. induction l as [|a l IH].
  - apply writes_ret.
  - cbn [for_of flat_map]. apply writes_bind; [apply H|exact IH].
Qed.

Lemma writes_writeFrame (f : CameraFrame) : writes (writeFrame f) (layout_frame f).
Proof.
  unfold writeFrame, layout_frame.
  repeat (apply writes_bind;
          [first [apply writes_write_at_offset, le_bytes_length
                 | apply writes_for_of; intros; now apply writes_write_at_offset]|]).
  now apply writes_write_at_offset.
Qed.

Lemma writes_writeCameraVmd_body (frames : list CameraFrame) :
  writes (writeCameraVmd_body frames) (layout_file frames).
Proof.
  unfold writeCameraVmd_body, layout_file.
  rewrite writeAscii_signature, writeBytes_model_name.
  apply writes_bind; [now apply writes_write_at_offset|].
  apply writes_bind; [now apply writes_write_at_offset|].
  repeat (apply writes_bind;
          [first [apply writes_write_at_offset, le_bytes_length
                 | apply writes_for_of; intros; apply writes_writeFrame]|]).
  apply writes_write_at_offset, le_bytes_length.
Qed.

Lemma flat_map_layout_frame_length_entries (frames : list CameraFrame) :
  length (flat_map layout_frame frames) = (37 * length frames + curve_entries frames)%nat.
Proof.
  unfold curve_entries.
  induction frames as [|f l IH]; [reflexivity|].
  cbn [flat_map length map].
  change (list_sum (length (curve f) :: map (fun f => length (curve f)) l))
    with (length (curve f) + list_sum (map (fun f => length (curve f)) l))%nat.
  rewrite length_app, layout_frame_length, IH. lia.
Qed.

Lemma layout_file_length_entries (frames : list CameraFrame) :
  length (layout_file frames) = (74 + 37 * length frames + curve_entries frames)%nat.
Proof.
  unfold layout_file, layout_uint32.
  rewrite !length_app, !le_bytes_length, flat_map_layout_frame_length_entries.
  change (length signature_field) with 30%nat.
  change (length model_name_field) with 20%nat.
  lia.
Qed.

(** X1. writeCameraVmd sizes its buffer for 24 curve entries a frame and
    writes whatever entries the frames have.  When the frames hold at most
    24 entries each on average, it returns a buffer of the usual size: the
    fields of the format, followed by zero bytes for the entries that are
    missing.  When they hold more, a write falls outside the buffer and the
    call throws a RangeError. *)
Theorem writeCameraVmd_curve_bounds (frames : list CameraFrame) :
  ((curve_entries frames <= 24 * length frames)%nat ->
   writeCameraVmd frames
   = inr (layout_file frames ++ repeat 0 (24 * length frames - curve_entries frames)))
  /\ ((24 * length frames < curve_entries frames)%nat ->
      writeCameraVmd frames = inl RangeError).
Proof.
  pose proof (writes_writeCameraVmd_body frames []
                (VMD_HEADER_SIZE + VMD_MODEL_NAME_SIZE + VMD_UINT32_SIZE * VMD_COUNT_FIELDS
                 + length frames * VMD_CAMERA_FRAME_SIZE)%nat) as [Hfit Hover].
  rewrite layout_file_length_entries in Hfit, Hover.
  unfold VMD_HEADER_SIZE, VMD_MODEL_NAME_SIZE, VMD_UINT32_SIZE, VMD_COUNT_FIELDS,
    VMD_CAMERA_FRAME_SIZE in Hfit, Hover.
  cbn [app length] in Hfit, Hover.
  split; intros H; unfold writeCameraVmd;
    unfold VMD_HEADER_SIZE, VMD_MODEL_NAME_SIZE, VMD_UINT32_SIZE, VMD_COUNT_FIELDS,
      VMD_CAMERA_FRAME_SIZE.
  - rewrite Hfit by lia. cbn [uint8].
    replace (30 + 20 + 4 * 6 + length frames * 61
             - (74 + 37 * length frames + curve_entries frames))%nat
      with (24 * length frames - curve_entries frames)%nat by lia.
    reflexivity.
  - specialize (Hover ltac:(lia)).
    destruct (writeCameraVmd_body frames _) as [[e|[]] w]; cbn [fst] in Hover;
      [now injection Hover as ->|discriminate].
Qed.

Lemma slice_app_at {A} (a b c : list A) :
  firstn (length b) (skipn (length a) (a ++ b ++ c)) = b.
Proof.
  rewrite skipn_app, skipn_all, Nat.sub_diag. cbn [skipn app].
  rewrite firstn_app, firstn_all, Nat.sub_diag, firstn_O. apply app_nil_r.
Qed.

Lemma slice_of_slice (buffer : list Z) (off d n len : nat) :
  (d + n <= len)%nat ->
  slice buffer (off + d) n = slice (slice buffer off len) d n.
Proof.
  intros H. unfold slice.
  rewrite skipn_firstn_comm, firstn_firstn, Nat.min_l by lia.
  now rewrite skipn_skipn, Nat.add_comm.
Qed.

Lemma flat_map_frame_at (frames : list CameraFrame) (i : nat) (f : CameraFrame) (rest : list Z) :
  Forall well_typed_frame frames ->
  nth_error frames i = Some f ->
  firstn 61 (skipn (i * 61) (flat_map layout_frame frames ++ rest)) = layout_frame f.
Proof.
  intros Hty. revert i. induction Hty as [|g l Hg _ IH]; intros i Hi.
  - destruct i; discriminate.
  - assert (Hlen : length (layout_frame g) = 61%nat)
      by (rewrite layout_frame_length, Hg; reflexivity).
    destruct i as [|i]; cbn [nth_error] in Hi.
    + injection Hi as ->. cbn [flat_map Nat.mul skipn].
      rewrite <- app_assoc, <- Hlen, firstn_app, firstn_all, Nat.sub_diag, firstn_O.
      apply app_nil_r.
    + cbn [flat_map]. rewrite <- app_assoc.
      replace (S i * 61)%nat with (i * 61 + length (layout_frame g))%nat by lia.
      rewrite <- skipn_skipn, skipn_app, skipn_all, Nat.sub_diag.
      cbn [skipn app]. now apply IH.
Qed.

Lemma layout_file_frame_at (frames : list CameraFrame) (i : nat) (f : CameraFrame) :
  Forall well_typed_frame frames ->
  nth_error frames i = Some f ->
  slice (layout_file frames) (frame_offset i) 61 = layout_frame f.
Proof.
  intros Hty Hi. unfold slice, frame_offset.
  rewrite layout_file_split.
  replace (VMD_HEADER_SIZE + VMD_MODEL_NAME_SIZE + 3 * VMD_UINT32_SIZE
           + i * VMD_CAMERA_FRAME_SIZE)%nat
    with (i * 61 + 4 + length header_before_count)%nat
    by (rewrite header_before_count_length; unfold CAMERA_COUNT_OFFSET, VMD_HEADER_SIZE,
          VMD_MODEL_NAME_SIZE, VMD_UINT32_SIZE, VMD_CAMERA_FRAME_SIZE; lia).
  rewrite <- skipn_skipn, skipn_app, skipn_all, Nat.sub_diag. cbn [skipn app].
  rewrite <- skipn_skipn.
  unfold layout_uint32 at 1. cbn [le_bytes skipn app].
  now apply flat_map_frame_at.
Qed.


Lemma slice_app_r {A} (a b : list A) (d n : nat) :
  firstn n (skipn (length a + d) (a ++ b)) = firstn n (skipn d b).
Proof.
  rewrite Nat.add_comm, <- skipn_skipn, skipn_app, skipn_all, Nat.sub_diag. reflexivity.
Qed.

Lemma flat_map_layout_uint8 (l : list number) : flat_map layout_uint8 l = map ToUint8 l.
Proof. induction l as [|c l IH]; [reflexivity|]. cbn [flat_map map]. now rewrite IH. Qed.

Lemma layout_frame_fields (f : CameraFrame) :
  well_typed_frame f ->
  slice (layout_frame f) 0 4 = layout_uint32 (frameTime f)
  /\ slice (layout_frame f) 4 4 = layout_float32 (distance f)
  /\ slice (layout_frame f) 8 12
     = layout_float32 (at0 (position f)) ++ layout_float32 (at1 (position f))
       ++ layout_float32 (at2 (position f))
  /\ slice (layout_frame f) 20 12
     = layout_float32 (at0 (rotation f)) ++ layout_float32 (at1 (rotation f))
       ++ layout_float32 (at2 (rotation f))
  /\ slice (layout_frame f) 32 24 = map ToUint8 (curve f)
  /\ slice (layout_frame f) 56 4 = layout_uint32 (viewAngle f)
  /\ slice (layout_frame f) 60 1 = [ToUint8 (orthographic f)].
Proof.
  intros Hty. unfold well_typed_frame in Hty.
  set (A := layout_uint32 (frameTime f) ++ layout_float32 (distance f)
            ++ layout_float32 (at0 (position f)) ++ layout_float32 (at1 (position f))
            ++ layout_float32 (at2 (position f)) ++ layout_float32 (at0 (rotation f))
            ++ layout_float32 (at1 (rotation f)) ++ layout_float32 (at2 (rotation f))).
  set (C := map ToUint8 (curve f)).
  set (V := layout_uint32 (viewAngle f)).
  set (O := [ToUint8 (orthographic f)]).
  assert (HA : length A = 32%nat) by reflexivity.
  assert (HC : length C = 24%nat) by (unfold C; now rewrite length_map).
  assert (Hf : layout_frame f = A ++ C ++ V ++ O).
  { unfold layout_frame. rewrite flat_map_layout_uint8.
    unfold A, C, V, O, layout_uint8. now rewrite <- !app_assoc. }
  rewrite Hf. unfold slice.
  split; [reflexivity|]. split; [reflexivity|]. split; [reflexivity|]. split; [reflexivity|].
  split; [|split].
  - rewrite <- HA, <- HC. apply slice_app_at.
  - replace (A ++ C ++ V ++ O) with ((A ++ C) ++ V ++ O) by now rewrite <- app_assoc.
    replace 56%nat with (length (A ++ C)) by (rewrite length_app; lia).
    change 4%nat with (length V). apply slice_app_at.
  - replace (A ++ C ++ V ++ O) with ((A ++ C ++ V) ++ O ++ [])
      by (now rewrite app_nil_r, <- !app_assoc).
    replace 60%nat with (length (A ++ C ++ V))
      by (rewrite !length_app, HA, HC; reflexivity).
    change 1%nat with (length O). apply slice_app_at.
Qed.

Lemma getUint32_slice (buffer : list Z) (off : nat) (v : number) :
  slice buffer off 4 = layout_uint32 v -> getUint32 buffer off = ToUint32 v.
Proof.
  unfold getUint32, slice, layout_uint32. intros ->.
  apply le_value_le_bytes. change (256 ^ Z.of_nat 4) with (2 ^ 32). apply ToUint32_range.
Qed.

Lemma nth_slice_1 (buffer : list Z) (off : nat) (b : Z) :
  slice buffer off 1 = [b] -> nth off buffer 0 = b.
Proof.
  unfold slice. intros H.
  rewrite <- (Nat.add_0_r off), <- nth_skipn.
  destruct (skipn off buffer) as [|x l]; [discriminate|].
  cbn [firstn] in H. now injection H.
Qed.

(** X2. In the file writeCameraVmd returns, frame [i] starts at offset
    62 + 61 * i, and its fields are found there: frame index (uint32) at
    +0, distance (float32) at +4, target position at +8, rotation at +20,
    the 24 curve bytes at +32, view angle (uint32) at +56, the orthographic
    flag at +60.  Integer fields hold the value converted with ToUint32 or
    ToUint8. *)
Theorem writeCameraVmd_frame_fields (frames : list CameraFrame) (i : nat) (f : CameraFrame) :
  Forall well_typed_frame frames ->
  nth_error frames i = Some f ->
  exists buffer,
    writeCameraVmd frames = inr buffer
    /\ frame_offset i = (62 + 61 * i)%nat
    /\ getUint32 buffer (frame_offset i) = ToUint32 (frameTime f)
    /\ slice buffer (frame_offset i + 4) 4 = layout_float32 (distance f)
    /\ slice buffer (frame_offset i + 8) 12
       = layout_float32 (at0 (position f)) ++ layout_float32 (at1 (position f))
         ++ layout_float32 (at2 (position f))
    /\ slice buffer (frame_offset i + 20) 12
       = layout_float32 (at0 (rotation f)) ++ layout_float32 (at1 (rotation f))
         ++ layout_float32 (at2 (rotation f))
    /\ slice buffer (frame_offset i + 32) 24 = map ToUint8 (curve f)
    /\ getUint32 buffer (frame_offset i + 56) = ToUint32 (viewAngle f)
    /\ nth (frame_offset i + 60) buffer 0 = ToUint8 (orthographic f).
Proof.
  intros Hty Hi. exists (layout_file frames).
  split; [now apply writeCameraVmd_layout_file|].
  split; [unfold frame_offset, VMD_HEADER_SIZE, VMD_MODEL_NAME_SIZE, VMD_UINT32_SIZE,
            VMD_CAMERA_FRAME_SIZE; lia|].
  pose proof (layout_file_frame_at frames i f Hty Hi) as Hat.
  assert (Hf : well_typed_frame f).
  { rewrite Forall_forall in Hty. apply Hty. eapply nth_error_In; eassumption. }
  destruct (layout_frame_fields f Hf) as (H0 & H4 & H8 & H20 & H32 & H56 & H60).
  rewrite <- Hat in H0, H4, H8, H20, H32, H56, H60.
  rewrite <- slice_of_slice in H0, H4, H8, H20, H32, H56, H60 by lia.
  rewrite Nat.add_0_r in H0.
  repeat split; try assumption.
  - now apply getUint32_slice.
  - now apply getUint32_slice.
  - now apply nth_slice_1.
Qed.

Lemma writeCameraVmd_frame_fields_witness :
  exists buffer,
    writeCameraVmd [Sample.frame0; Sample.frame0] = inr buffer
    /\ getUint32 buffer 123 = 0
    /\ getUint32 buffer (123 + 56) = 45
    /\ slice buffer (123 + 4) 4 = [0; 0; 0x48; 0xC2].
Proof.
  destruct (writeCameraVmd_frame_fields [Sample.frame0; Sample.frame0] 1 Sample.frame0)
    as (buffer & Hw & _ & Ht & Hd & _ & _ & _ & Hv & _).
  - repeat constructor.
  - reflexivity.
  - exists buffer. repeat split; assumption.
Defined.

Lemma layout_file_split_tail (frames : list CameraFrame) :
  layout_file frames
  = (header_before_count
     ++ layout_uint32 (of_Z (Z.of_nat (length frames)))
     ++ flat_map layout_frame frames)
    ++ repeat 0 12.
Proof. rewrite layout_file_split, <- !app_assoc. reflexivity. Qed.

(** X3. Whatever the frames, the file holds the fixed model name (the 12
    Shift-JIS bytes, zero-padded to 20) at offset 30, a bone-frame count of
    0 at offset 50 and a morph-frame count of 0 at offset 54, and ends,
    right after the last frame, with twelve zero bytes: the light, shadow
    and IK counts. *)
Theorem writeCameraVmd_fixed_fields (frames : list CameraFrame) :
  Forall well_typed_frame frames ->
  exists buffer,
    writeCameraVmd frames = inr buffer
    /\ slice buffer 30 20 = CAMERA_MODEL_NAME_SJIS ++ repeat 0 8
    /\ getUint32 buffer 50 = 0
    /\ getUint32 buffer 54 = 0
    /\ skipn (frame_offset (length frames)) buffer = repeat 0 12.
Proof.
  intros Hty. exists (layout_file frames).
  split; [now apply writeCameraVmd_layout_file|].
  assert (Hhead : forall n, (n <= 58)%nat ->
                            firstn n (layout_file frames) = firstn n header_before_count).
  { intros n Hn. rewrite layout_file_split, firstn_app, header_before_count_length.
    replace (n - CAMERA_COUNT_OFFSET)%nat with 0%nat
      by (unfold CAMERA_COUNT_OFFSET, VMD_HEADER_SIZE, VMD_MODEL_NAME_SIZE, VMD_UINT32_SIZE; lia).
    rewrite firstn_O. apply app_nil_r. }
  assert (Hslice : forall off n, (off + n <= 58)%nat ->
                                 slice (layout_file frames) off n = slice header_before_count off n).
  { intros off n Hn. unfold slice.
    rewrite !firstn_skipn_comm, Hhead by lia. reflexivity. }
  split; [rewrite Hslice by lia; reflexivity|].
  split; [unfold getUint32; fold (slice (layout_file frames) 50 4);
          rewrite Hslice by lia; reflexivity|].
  split; [unfold getUint32; fold (slice (layout_file frames) 54 4);
          rewrite Hslice by lia; reflexivity|].
  rewrite layout_file_split_tail.
  replace (frame_offset (length frames))
    with (length (header_before_count
                  ++ layout_uint32 (of_Z (Z.of_nat (length frames)))
                  ++ flat_map layout_frame frames)).
  - rewrite skipn_app, skipn_all, Nat.sub_diag. reflexivity.
  - rewrite !length_app, header_before_count_length, flat_map_layout_frame_length by assumption.
    unfold layout_uint32. rewrite le_bytes_length.
    unfold frame_offset, CAMERA_COUNT_OFFSET, VMD_HEADER_SIZE, VMD_MODEL_NAME_SIZE,
      VMD_UINT32_SIZE, VMD_CAMERA_FRAME_SIZE. lia.
Qed.

Lemma writeCameraVmd_fixed_fields_witness :
  exists buffer,
    writeCameraVmd [] = inr buffer
    /\ slice buffer 30 20 = CAMERA_MODEL_NAME_SJIS ++ repeat 0 8
    /\ getUint32 buffer 50 = 0
    /\ getUint32 buffer 54 = 0
    /\ skipn 62 buffer = repeat 0 12.
Proof.
  apply (writeCameraVmd_fixed_fields []). constructor.
Defined.

Lemma ToUint8_of_Z (n : Z) : 0 <= n < 256 -> ToUint8 (of_Z n) = n.
Proof.
  intros Hn. unfold ToUint8. rewrite truncate_of_Z by lia. apply Z.mod_small. lia.
Qed.

Lemma ToUint32_of_Z (n : Z) : 0 <= n < 2 ^ 32 -> ToUint32 (of_Z n) = n.
Proof.
  intros Hn. unfold ToUint32. rewrite truncate_of_Z by lia. apply Z.mod_small. lia.
Qed.

Lemma map_ToUint8_of_Z (cs : list Z) :
  Forall (fun c => 0 <= c < 256) cs -> map ToUint8 (map of_Z cs) = cs.
Proof.
  induction 1 as [|c l Hc _ IH]; [reflexivity|].
  cbn [map]. now rewrite ToUint8_of_Z, IH.
Qed.

(** X6. Integer fields round-trip: when a frame's frame index and view
    angle are integers in [0, 2^32), and its orthographic flag and curve
    entries integers in [0, 256), reading the file back at the frame's
    offsets gives exactly these integers. *)
Theorem writeCameraVmd_integer_fields_round_trip
        (frames : list CameraFrame) (i : nat) (f : CameraFrame)
        (t a o : Z) (cs : list Z) :
  Forall well_typed_frame frames ->
  nth_error frames i = Some f ->
  frameTime f = of_Z t -> 0 <= t < 2 ^ 32 ->
  viewAngle f = of_Z a -> 0 <= a < 2 ^ 32 ->
  orthographic f = of_Z o -> 0 <= o < 256 ->
  curve f = map of_Z cs -> Forall (fun c => 0 <= c < 256) cs ->
  exists buffer,
    writeCameraVmd frames = inr buffer
    /\ getUint32 buffer (62 + 61 * i) = t
    /\ slice buffer (62 + 61 * i + 32) 24 = cs
    /\ getUint32 buffer (62 + 61 * i + 56) = a
    /\ nth (62 + 61 * i + 60) buffer 0 = o.
Proof.
  intros Hty Hi Ht Htr Ha Har Ho Hor Hc Hcr.
  exists (layout_file frames).
  split; [now apply writeCameraVmd_layout_file|].
  pose proof (layout_file_frame_at frames i f Hty Hi) as Hat.
  assert (Hf : well_typed_frame f).
  { rewrite Forall_forall in Hty. apply Hty. eapply nth_error_In; eassumption. }
  destruct (layout_frame_fields f Hf) as (H0 & _ & _ & _ & H32 & H56 & H60).
  rewrite <- Hat in H0, H32, H56, H60.
  rewrite <- slice_of_slice in H0, H32, H56, H60 by lia.
  rewrite Nat.add_0_r in H0.
  assert (Hoff : frame_offset i = (62 + 61 * i)%nat)
    by (unfold frame_offset, VMD_HEADER_SIZE, VMD_MODEL_NAME_SIZE, VMD_UINT32_SIZE,
          VMD_CAMERA_FRAME_SIZE; lia).
  rewrite Hoff in H0, H32, H56, H60.
  repeat split.
  - rewrite (getUint32_slice _ _ _ H0), Ht. now apply ToUint32_of_Z.
  - rewrite H32, Hc. now apply map_ToUint8_of_Z.
  - rewrite (getUint32_slice _ _ _ H56), Ha. now apply ToUint32_of_Z.
  - rewrite (nth_slice_1 _ _ _ H60), Ho. now apply ToUint8_of_Z.
Qed.

Lemma writeCameraVmd_integer_fields_round_trip_witness :
  exists buffer,
    writeCameraVmd [Sample.frame0] = inr buffer
    /\ getUint32 buffer 62 = 0
    /\ slice buffer (62 + 32) 24
       = [20; 107; 20; 107; 20; 107; 20; 107; 20; 107; 20; 107;
          20; 107; 20; 107; 20; 107; 20; 107; 20; 107; 20; 107]
    /\ getUint32 buffer (62 + 56) = 45
    /\ nth (62 + 60) buffer 0 = 0.
Proof.
  apply (writeCameraVmd_integer_fields_round_trip [Sample.frame0] 0 Sample.frame0).
  - repeat constructor.
  - reflexivity.
  - vm_compute. reflexivity.
  - lia.
  - vm_compute. reflexivity.
  - lia.
  - vm_compute. reflexivity.
  - lia.
  - vm_compute. reflexivity.
  - repeat constructor; lia.
Defined.

(** ** The text and byte fields *)

Lemma store_middle (a b : list Z) (x v : Z) :
  store (a ++ x :: b) (length a) v = a ++ v :: b.
Proof. induction a as [|h a IH]; cbn [app length store]; [reflexivity|now rewrite IH]. Qed.

Lemma fold_store_seq (g : nat -> Z) (n len : nat) :
  (n <= len)%nat ->
  fold_left (fun bytes i => store bytes i (g i)) (seq 0 n) (repeat 0 len)
  = map g (seq 0 n) ++ repeat 0 (len - n).
Proof.
  induction n as [|n IH]; intros Hn.
  - cbn [seq fold_left map app]. now rewrite Nat.sub_0_r.
  - rewrite seq_S, fold_left_app, IH by lia. cbn [fold_left Nat.add].
    replace (len - n)%nat with (S (len - S n)) by lia. cbn [repeat].
    pose proof (store_middle (map g (seq 0 n)) (repeat 0 (len - S n)) 0 (g n)) as Hs.
    rewrite length_map, length_seq in Hs.
    rewrite Hs, map_app, <- app_assoc. reflexivity.
Qed.

Lemma map_nth_seq (h : Z -> Z) (l : list Z) :
  map (fun i => h (nth i l 0)) (seq 0 (length l)) = map h l.
Proof.
  induction l as [|x l IH]; [reflexivity|].
  cbn [length seq map nth]. f_equal.
  rewrite <- seq_shift, map_map. exact IH.
Qed.

Lemma writeAscii_bytes (str : list Z) (len : nat) :
  fold_left (fun bytes i => store bytes i (Z.land (nth i str 0) ASCII_MASK))
            (seq 0 (Nat.min (length str) len)) (Uint8Array_new len)
  = ascii_field str len.
Proof.
  unfold Uint8Array_new, ascii_field.
  rewrite fold_store_seq by lia.
  f_equal; [|f_equal; lia].
  rewrite <- (map_nth_seq (fun c => Z.land c ASCII_MASK) (firstn len str)).
  rewrite length_firstn, Nat.min_comm.
  apply map_ext_in. intros i Hi. apply in_seq in Hi.
  now rewrite nth_firstn, (proj2 (Nat.ltb_lt i len)) by lia.
Qed.

Lemma ascii_field_length (str : list Z) (len : nat) : length (ascii_field str len) = len.
Proof.
  unfold ascii_field. rewrite length_app, length_map, length_firstn, repeat_length. lia.
Qed.

Lemma bytes_field_length (bytes : list Z) (len : nat) : length (bytes_field bytes len) = len.
Proof.
  unfold bytes_field. rewrite length_app, length_firstn, repeat_length. lia.
Qed.

Lemma land_mask_range (c : Z) : 0 <= Z.land c ASCII_MASK < 128.
Proof.
  change ASCII_MASK with (Z.ones 7). rewrite Z.land_ones by lia.
  apply Z.mod_pos_bound. lia.
Qed.

Lemma write_at_offset_run (bytes : list Z) (n : nat) (w : Writer) :
  length bytes = n ->
  ((offset w + n <= length (uint8 w))%nat ->
   write_at_offset bytes n w
   = (inr tt,
      mkWriter (firstn (offset w) (uint8 w) ++ bytes ++ skipn (offset w + n) (uint8 w))
               (offset w + n)))
  /\ ((length (uint8 w) < offset w + n)%nat ->
      write_at_offset bytes n w = (inl RangeError, w)).
Proof.
  intros <-. unfold write_at_offset, TypedArray_set.
  split; intros H.
  - now rewrite (proj2 (Nat.leb_le _ _) H).
  - now rewrite (proj2 (Nat.leb_gt _ _) H).
Qed.

(** X4. writeAscii writes exactly [len] bytes at the offset and advances
    the offset by [len]: the code units of the text, each masked to its low
    7 bits, cut at [len] when the text is longer and zero-padded when it is
    shorter; the bytes before and after the slot are left as they were.
    When the slot does not fit in the buffer it throws a RangeError and
    writes nothing. *)
Theorem writeAscii_mask_truncate_pad (str : list Z) (len : nat) (w : Writer) :
  ((offset w + len <= length (uint8 w))%nat ->
   writeAscii str len w
   = (inr tt,
      mkWriter (firstn (offset w) (uint8 w)
                ++ (map (fun c => Z.land c 0x7f) (firstn len str)
                    ++ repeat 0 (len - length str))
                ++ skipn (offset w + len) (uint8 w))
               (offset w + len)))
  /\ ((length (uint8 w) < offset w + len)%nat ->
      writeAscii str len w = (inl RangeError, w))
  /\ length (map (fun c => Z.land c 0x7f) (firstn len str)
             ++ repeat 0 (len - length str)) = len
  /\ Forall (fun b => 0 <= b < 128)
            (map (fun c => Z.land c 0x7f) (firstn len str) ++ repeat 0 (len - length str)).
Proof.
  fold ASCII_MASK. fold (ascii_field str len).
  unfold writeAscii. rewrite writeAscii_bytes.
  destruct (write_at_offset_run (ascii_field str len) len w (ascii_field_length str len))
    as [Hfit Hover].
  repeat split; try assumption.
  - apply ascii_field_length.
  - unfold ascii_field. apply Forall_app. split.
    + apply Forall_map, Forall_forall. intros c _. apply land_mask_range.
    + apply Forall_forall. intros b Hb. apply repeat_spec in Hb. lia.
Qed.

(** X5. writeBytes writes exactly [len] bytes at the offset and advances
    the offset by [len]: the given bytes, cut at [len] when there are more
    and zero-padded when there are fewer; the bytes before and after the
    slot are left as they were.  When the slot does not fit in the buffer
    it throws a RangeError and writes nothing. *)
Theorem writeBytes_truncate_pad (bytes : list Z) (len : nat) (w : Writer) :
  ((offset w + len <= length (uint8 w))%nat ->
   writeBytes bytes len w
   = (inr tt,
      mkWriter (firstn (offset w) (uint8 w)
                ++ (firstn len bytes ++ repeat 0 (len - length bytes))
                ++ skipn (offset w + len) (uint8 w))
               (offset w + len)))
  /\ ((length (uint8 w) < offset w + len)%nat ->
      writeBytes bytes len w = (inl RangeError, w))
  /\ length (firstn len bytes ++ repeat 0 (len - length bytes)) = len.
Proof.
  fold (bytes_field bytes len).
  assert (Hpad : TypedArray_set (Uint8Array_new len) (slice0 bytes len) 0
                 = Some (bytes_field bytes len)).
  { unfold TypedArray_set, Uint8Array_new, slice0, bytes_field.
    rewrite repeat_length, length_firstn.
    rewrite (proj2 (Nat.leb_le _ _)) by lia.
    cbn [firstn app Nat.add]. rewrite skipn_repeat. do 3 f_equal. lia. }
  unfold writeBytes. rewrite Hpad.
  destruct (write_at_offset_run (bytes_field bytes len) len w (bytes_field_length bytes len))
    as [Hfit Hover].
  repeat split; try assumption. apply bytes_field_length.
Qed.

(** ** The converter: outcomes, states, sequences of calls *)

(** X7. The outcome of matrixFromFSpyRows tells the cause.  It is the
    rows-size error exactly when the input is not four rows of four; the
    value error exactly when the input is 4x4 and some entry is undefined
    (so a wrong shape is reported before a missing value); and a matrix
    exactly when the input is 4x4 with every entry defined, in which case
    the matrix is the transposed storage of the rows. *)
Theorem matrixFromFSpyRows_outcomes (rs : list (list (option number))) :
  (matrixFromFSpyRows rs = inl ROWS_SIZE_ERROR <-> ~ is_4x4 rs)
  /\ (matrixFromFSpyRows rs = inl VALUE_ERROR
      <-> is_4x4 rs /\ exists r c, (r < 4)%nat /\ (c < 4)%nat /\ entry rs r c = None)
  /\ (matrixFromFSpyRows rs = inr (columnMajor rs)
      <-> is_4x4 rs /\ forall r c, (r < 4)%nat -> (c < 4)%nat -> entry rs r c <> None)
  /\ (forall m, matrixFromFSpyRows rs = inr m -> m = columnMajor rs).
Proof.
  assert (Hdec : is_4x4 rs \/ ~ is_4x4 rs).
  { destruct (negb (length rs =? MATRIX_SIZE)%nat
              || existsb (fun row => negb (length row =? MATRIX_SIZE)%nat) rs) eqn:E.
    - right. intros H. apply shape_test_true in H. congruence.
    - left. now apply shape_test_false. }
  assert (Hund : is_4x4 rs -> has_undefined rs = true ->
                 exists r c, (r < 4)%nat /\ (c < 4)%nat /\ entry rs r c = None).
  { intros [Hlen Hrows] E.
    apply existsb_exists in E as (row & Hin & E).
    apply existsb_exists in E as (v & Hv & E).
    destruct v; [discriminate|].
    apply In_nth_error in Hin as (r & Hr).
    assert (Hl : length row = 4%nat).
    { rewrite Forall_forall in Hrows. apply Hrows. eapply nth_error_In; eassumption. }
    apply In_nth_error in Hv as (c & Hc).
    exists r, c. repeat split.
    - rewrite <- Hlen. apply nth_error_Some. now rewrite Hr.
    - rewrite <- Hl. apply nth_error_Some. now rewrite Hc.
    - unfold entry. now rewrite Hr, Hc. }
  destruct Hdec as [H4|Hn4].
  - rewrite matrixFromFSpyRows_4x4 by assumption.
    destruct (has_undefined rs) eqn:E.
    + pose proof (Hund H4 eq_refl) as (r & c & Hr & Hc & He).
      split; [split; [discriminate|contradiction]|].
      split; [split; [intros _; split; [assumption|now exists r, c]|reflexivity]|].
      split; [split; [discriminate|intros [_ Hdef]; now elim (Hdef r c)]|discriminate].
    + assert (Hdef : forall r c, (r < 4)%nat -> (c < 4)%nat -> entry rs r c <> None).
      { intros r c Hr Hc He.
        rewrite (has_undefined_entry rs r c) in E by assumption. discriminate. }
      split; [split; [discriminate|contradiction]|].
      split; [split; [discriminate|intros [_ (r & c & Hr & Hc & He)]; now elim (Hdef r c)]|].
      split; [split; [intros _; now split|reflexivity]|].
      intros m Hm. now injection Hm.
  - rewrite matrixFromFSpyRows_not_4x4 by assumption.
    split; [split; [intros _; assumption|reflexivity]|].
    split; [split; [discriminate|intros [H4 _]; contradiction]|].
    split; [split; [discriminate|intros [H4 _]; contradiction]|discriminate].
Qed.

Section ConverterLemmas.

Context {ext : Collaborators}.

Lemma applyFSpyToCamera_success (fspy : FspyData) (opts : option ApplyFSpyToCameraOptions)
      (this : FspyVmdConverter) (m : Three.Matrix4) :
  matrixFromFSpyRows (rows (cameraTransform fspy)) = inr m ->
  applyFSpyToCamera fspy opts this
  = (inr tt,
     mkConverter (camera_after_apply fspy opts m) (Some (cloneFspyData fspy))
                 (converterOptions this)).
Proof.
  intros Hm. rewrite applyFSpyToCamera_run, Hm. f_equal. f_equal.
  unfold camera_after_apply, camera_before_matrix, updateMatrixWorld_true, updateMatrix,
    matrixWorld_decompose, matrixWorld_copy, updateProjectionMatrix.
  cbn [Three.set_matrixAutoUpdate Three.set_matrixWorld Three.matrixWorld].
  destruct (decompose m) as [[p q] s]. reflexivity.
Qed.

Lemma applyFSpyToCamera_held (fspy : FspyData) (opts : option ApplyFSpyToCameraOptions)
      (this : FspyVmdConverter) :
  fspyData (snd (applyFSpyToCamera fspy opts this)) = Some (cloneFspyData fspy)
  /\ converterOptions (snd (applyFSpyToCamera fspy opts this)) = converterOptions this.
Proof.
  rewrite applyFSpyToCamera_run.
  destruct (matrixFromFSpyRows (rows (cameraTransform fspy))); split; reflexivity.
Qed.

Lemma exportVmd_state (options : option ExportVmdOptions) (this : FspyVmdConverter) :
  snd (exportVmd options this)
  = match fspyData this with
    | Some _ => set_camera (updateWorldMatrix (camera this)) this
    | None => this
    end.
Proof.
  destruct (fspyData this) eqn:Hd.
  - rewrite exportVmd_run by congruence. reflexivity.
  - now rewrite exportVmd_not_set.
Qed.

End ConverterLemmas.

Section ConverterProperties.

Context {ext : Collaborators}.

Lemma valid_rows_convert (rs : list (list (option number))) :
  is_4x4 rs ->
  (forall r c, (r < 4)%nat -> (c < 4)%nat -> entry rs r c <> None) ->
  matrixFromFSpyRows rs = inr (columnMajor rs).
Proof.
  intros H4 Hdef. rewrite matrixFromFSpyRows_4x4 by assumption.
  now rewrite has_undefined_false.
Qed.

(** X8. A successful applyFSpyToCamera leaves: the held record set to a
    copy of the argument; the converter options as they were; fov, aspect,
    near (0.01 when absent) and far (2000 when absent) assigned and the
    projection matrix computed from them; matrixAutoUpdate false; position,
    quaternion and scale the decomposition of the transposed calibration
    matrix; the local matrix their recomposition; and the world matrix
    equal to the local matrix. *)
Theorem applyFSpyToCamera_success_state
        (fspy : FspyData) (opts : option ApplyFSpyToCameraOptions) (this : FspyVmdConverter) :
  is_4x4 (rows (cameraTransform fspy)) ->
  (forall r c, (r < 4)%nat -> (c < 4)%nat -> entry (rows (cameraTransform fspy)) r c <> None) ->
  exists this',
    applyFSpyToCamera fspy opts this = (inr tt, this')
    /\ fspyData this' = Some (cloneFspyData fspy)
    /\ converterOptions this' = converterOptions this
    /\ Three.fov (camera this') = radToDeg (verticalFieldOfView fspy)
    /\ Three.aspect (camera this') = (imageWidth fspy / imageHeight fspy)%float
    /\ Three.near (camera this')
       = nullish (match opts with Some o => opt_near o | None => None end) 0.01%float
    /\ Three.far (camera this')
       = nullish (match opts with Some o => opt_far o | None => None end) 2000%float
    /\ Three.projectionMatrix (camera this')
       = makePerspective (Three.fov (camera this')) (Three.aspect (camera this'))
                         (Three.near (camera this')) (Three.far (camera this'))
    /\ Three.matrixAutoUpdate (camera this') = false
    /\ decompose (columnMajor (rows (cameraTransform fspy)))
       = (Three.position (camera this'), Three.quaternion (camera this'),
          Three.scale (camera this'))
    /\ Three.matrix (camera this')
       = compose (Three.position (camera this')) (Three.quaternion (camera this'))
                 (Three.scale (camera this'))
    /\ Three.matrixWorld (camera this') = Three.matrix (camera this').
Proof.
  intros H4 Hdef. eexists. split.
  - apply applyFSpyToCamera_success. now apply valid_rows_convert.
  - cbn [fspyData converterOptions camera]. unfold camera_after_apply.
    destruct (decompose (columnMajor (rows (cameraTransform fspy)))) as [[p q] s].
    repeat split.
Qed.

(** X9. A successful applyFSpyToCamera overwrites every field of the
    camera that the converter reads or writes: the state it leaves does not
    depend on the state it found (apart from the converter options), and
    applying the same calibration again changes nothing. *)
Theorem applyFSpyToCamera_overwrites
        (fspy : FspyData) (opts : option ApplyFSpyToCameraOptions) (this : FspyVmdConverter) :
  is_4x4 (rows (cameraTransform fspy)) ->
  (forall r c, (r < 4)%nat -> (c < 4)%nat -> entry (rows (cameraTransform fspy)) r c <> None) ->
  (forall other,
      converterOptions other = converterOptions this ->
      applyFSpyToCamera fspy opts other = applyFSpyToCamera fspy opts this)
  /\ applyFSpyToCamera fspy opts (snd (applyFSpyToCamera fspy opts this))
     = applyFSpyToCamera fspy opts this.
Proof.
  intros H4 Hdef.
  pose proof (valid_rows_convert _ H4 Hdef) as Hm.
  split.
  - intros other Ho. rewrite !(applyFSpyToCamera_success _ _ _ _ Hm). now rewrite Ho.
  - rewrite !(applyFSpyToCamera_success _ _ _ _ Hm). reflexivity.
Qed.

Lemma after_call_converterOptions (c : Call) (this : FspyVmdConverter) :
  converterOptions (after_call c this) = converterOptions this.
Proof.
  destruct c as [fspy opts|options| | |]; cbn [after_call]; try reflexivity.
  - apply applyFSpyToCamera_held.
  - rewrite exportVmd_state. now destruct (fspyData this).
Qed.

Lemma after_call_fspyData (c : Call) (this : FspyVmdConverter) :
  fspyData (after_call c this)
  = match c with
    | CallApply fspy _ => Some (cloneFspyData fspy)
    | _ => fspyData this
    end.
Proof.
  destruct c as [fspy opts|options| | |]; cbn [after_call]; try reflexivity.
  - apply applyFSpyToCamera_held.
  - rewrite exportVmd_state. now destruct this as [c [d|] o].
Qed.

Lemma after_calls_snoc (cs : list Call) (c : Call) (this : FspyVmdConverter) :
  after_calls (cs ++ [c]) this = after_call c (after_calls cs this).
Proof. unfold after_calls. now rewrite fold_left_app. Qed.

(** X10. Over any sequence of calls on a freshly constructed converter,
    the held record is null exactly when applyFSpyToCamera has not been
    called, whether or not the calls succeeded: exportVmd then throws
    FSPY_DATA_NOT_SET, and after any call of applyFSpyToCamera, also a
    failed one, exportVmd returns a buffer of 135 bytes. *)
Theorem exportVmd_throws_iff_never_applied
        (cam : Three.PerspectiveCamera) (ctor_options : option FspyVmdConverterOptions)
        (cs : list Call) (options : option ExportVmdOptions) :
  let this := after_calls cs (constructor cam ctor_options) in
  (fspyData this = None <-> existsb is_apply cs = false)
  /\ (existsb is_apply cs = false ->
      exists message,
        fst (exportVmd options this) = inl (FspyVmdConverterError FSPY_DATA_NOT_SET message))
  /\ (existsb is_apply cs = true ->
      exists buffer, fst (exportVmd options this) = inr buffer /\ length buffer = 135%nat).
Proof.
  cbn zeta.
  assert (Hheld : fspyData (after_calls cs (constructor cam ctor_options)) = None
                  <-> existsb is_apply cs = false).
  { induction cs as [|c cs IH] using rev_ind.
    - split; reflexivity.
    - rewrite after_calls_snoc, after_call_fspyData, existsb_app. cbn [existsb].
      rewrite orb_false_r.
      destruct c; cbn [is_apply]; rewrite ?orb_true_r, ?orb_false_r;
        try exact IH. split; discriminate. }
  split; [exact Hheld|]. split.
  - intros Hnone. apply Hheld in Hnone. eexists. now rewrite exportVmd_not_set.
  - intros Hsome.
    assert (Hd : fspyData (after_calls cs (constructor cam ctor_options)) <> None).
    { intros E. apply Hheld in E. congruence. }
    rewrite exportVmd_run by assumption. eexists. split; [reflexivity|].
    rewrite layout_file_length; [reflexivity|].
    constructor; [reflexivity|constructor].
Qed.

(** X13. The converter options are fixed at construction: after any
    sequence of calls, getOptions returns the distanceBaseMultiplier given
    to the constructor, or 5 when none was given, and leaves the converter
    as it is. *)
Theorem converterOptions_fixed_at_construction
        (cam : Three.PerspectiveCamera) (ctor_options : option FspyVmdConverterOptions)
        (cs : list Call) :
  let this := after_calls cs (constructor cam ctor_options) in
  let given := match ctor_options with
               | Some o => opt_distanceBaseMultiplier o
               | None => None
               end in
  getOptions this
  = (inr {| opt_distanceBaseMultiplier := Some (nullish given 5%float) |}, this)
  /\ distanceBaseMultiplier (converterOptions this) = nullish given 5%float.
Proof.
  cbn zeta.
  assert (H : converterOptions (after_calls cs (constructor cam ctor_options))
              = converterOptions (constructor cam ctor_options)).
  { induction cs as [|c cs IH] using rev_ind; [reflexivity|].
    now rewrite after_calls_snoc, after_call_converterOptions. }
  unfold getOptions, gets. rewrite H. split; reflexivity.
Qed.


(** X12. getFspyData returns null on a fresh converter; after a call of
    applyFSpyToCamera (successful or not) it returns a copy of the copy the
    converter holds of the record applied last, and leaves the converter as
    it is.  When deep copies preserve values this is the record applied
    last. *)
Theorem getFspyData_returns_copy_of_last_applied
        (cam : Three.PerspectiveCamera) (ctor_options : option FspyVmdConverterOptions)
        (fspy : FspyData) (opts : option ApplyFSpyToCameraOptions) (this : FspyVmdConverter) :
  getFspyData (constructor cam ctor_options) = (inr None, constructor cam ctor_options)
  /\ (let this' := snd (applyFSpyToCamera fspy opts this) in
      getFspyData this' = (inr (Some (cloneFspyData (cloneFspyData fspy))), this'))
  /\ ((forall d, cloneFspyData d = d) ->
      fst (getFspyData (snd (applyFSpyToCamera fspy opts this))) = inr (Some fspy)).
Proof.
  split; [reflexivity|].
  pose proof (applyFSpyToCamera_held fspy opts this) as [Hheld _].
  split.
  - cbn zeta. unfold getFspyData, gets. now rewrite Hheld.
  - intros Hid. unfold getFspyData, gets. cbn [fst]. now rewrite Hheld, !Hid.
Qed.

End ConverterProperties.

(** ** Signs of Numbers, edge values, and the two calls in sequence *)

Lemma binary_round_aux_sign (s : bool) (m e : Z) (l : location) :
  sign_or_zero s (binary_round_aux prec emax s m e l).
Proof.
  unfold binary_round_aux.
  destruct (shr_fexp prec emax m e l) as [mrs' e'].
  destruct (shr_fexp prec emax _ e' loc_Exact) as [mrs'' e''].
  destruct (shr_m mrs''); cbn [sign_or_zero]; trivial.
  destruct (e'' <=? emax - prec); cbn [sign_or_zero]; reflexivity.
Qed.

Lemma SFsqrt_sign (x : spec_float) : sign_or_zero false (SFsqrt prec emax x).
Proof.
  destruct x as [s|[]| |[] m e]; cbn [SFsqrt sign_or_zero]; trivial.
  destruct (SFsqrt_core_binary prec emax (Zpos m) e) as [[mz ez] lz].
  apply binary_round_aux_sign.
Qed.

Lemma SFopp_sign (s : bool) (x : spec_float) :
  sign_or_zero s x -> sign_or_zero (negb s) (SFopp x).
Proof. destruct x; cbn; trivial; now intros ->. Qed.

Lemma SFmul_sign (s : bool) (x y : spec_float) :
  sign_or_zero s x -> sign_or_zero false y -> sign_or_zero s (SFmul prec emax x y).
Proof.
  destruct x as [sx|sx| |sx mx ex], y as [sy|sy| |sy my ey];
    cbn [SFmul sign_or_zero]; trivial; intros; subst;
    rewrite ?xorb_false_r; trivial.
  apply binary_round_aux_sign.
Qed.

Lemma leb_zero_sign (x : number) :
  (0 <=? x)%float = true -> sign_or_zero false (Prim2SF x).
Proof.
  rewrite leb_spec. change (Prim2SF 0) with (S754_zero false).
  destruct (Prim2SF x) as [s|[]| |[] m e]; cbn; trivial; discriminate.
Qed.

Lemma ltb_zero_sign (x : number) :
  sign_or_zero true (Prim2SF x) -> (0 <? x)%float = false.
Proof.
  rewrite ltb_spec. change (Prim2SF 0) with (S754_zero false).
  destruct (Prim2SF x) as [s|s| |s m e]; cbn; trivial; now intros ->.
Qed.

Lemma distance_not_positive (d m b : number) :
  (0 <=? m)%float = true -> (0 <=? b)%float = true ->
  (0 <? - sqrt d * m * b)%float = false.
Proof.
  intros Hm Hb. apply ltb_zero_sign.
  rewrite !mul_spec, opp_spec, sqrt_spec.
  apply SFmul_sign; [|now apply leb_zero_sign].
  apply SFmul_sign; [|now apply leb_zero_sign].
  apply (SFopp_sign false), SFsqrt_sign.
Qed.

Lemma div_zero_infinite (w : number) :
  (0 <? w)%float = true -> (w / 0)%float = infinity.
Proof.
  intros Hw. apply Prim2SF_inj. rewrite div_spec.
  rewrite ltb_spec in Hw. revert Hw.
  change (Prim2SF 0) with (S754_zero false).
  change (Prim2SF infinity) with (S754_infinity false).
  destruct (Prim2SF w) as [s|[]| |[] m e]; cbn; trivial; discriminate.
Qed.

Section EndToEnd.

Context {ext : Collaborators}.

(** X17. The exported distance is never positive: when the distance
    multiplier and the base multiplier are not negative, the distance of
    the frame is negative, a zero, or NaN (the format's "negative is in
    front of the target"). *)
Theorem exportVmd_distance_never_positive
        (options : option ExportVmdOptions) (this : FspyVmdConverter) :
  fspyData this <> None ->
  (0 <=? nullish (match options with Some o => opt_distanceMultiplier o | None => None end)
                 1)%float = true ->
  (0 <=? distanceBaseMultiplier (converterOptions this))%float = true ->
  exists frame this',
    exportVmd_cameraFrame options this = (inr frame, this')
    /\ (0 <? distance frame)%float = false.
Proof.
  intros Hheld Hm Hb. eexists _, _.
  split; [now apply exportVmd_cameraFrame_run|].
  cbn [frameOf distance]. unfold Three.distanceTo.
  now apply distance_not_positive.
Qed.

(** X14. A zero image height is not an error: with a valid transform
    applyFSpyToCamera succeeds, and for a positive image width the aspect
    it assigns is +Infinity. *)
Theorem applyFSpyToCamera_zero_image_height
        (fspy : FspyData) (opts : option ApplyFSpyToCameraOptions) (this : FspyVmdConverter) :
  is_4x4 (rows (cameraTransform fspy)) ->
  (forall r c, (r < 4)%nat -> (c < 4)%nat -> entry (rows (cameraTransform fspy)) r c <> None) ->
  imageHeight fspy = 0%float ->
  (0 <? imageWidth fspy)%float = true ->
  exists this',
    applyFSpyToCamera fspy opts this = (inr tt, this')
    /\ Three.aspect (camera this') = infinity.
Proof.
  intros H4 Hdef Hh Hw. eexists. split.
  - apply applyFSpyToCamera_success. now apply valid_rows_convert.
  - cbn [camera]. unfold camera_after_apply.
    destruct (decompose _) as [[p q] s]. cbn [Three.aspect].
    rewrite Hh. now apply div_zero_infinite.
Qed.


End EndToEnd.

Section ExportedFile.

Context {ext : Collaborators}.

(** X16. In the file exportVmd returns, the frame index at offset 62 is
    the frameTime option (0 when absent) converted with ToUint32, the
    target position at offset 70 is the target option (the origin when
    absent) as three float32, the 24 curve bytes at offset 94 are 20 and
    107 alternating, the view angle at offset 118 is the camera's fov
    rounded with Math.round, and the orthographic flag at offset 122
    is 0. *)
Theorem exportVmd_file_fields (options : option ExportVmdOptions) (this : FspyVmdConverter) :
  fspyData this <> None ->
  exists buffer this',
    exportVmd options this = (inr buffer, this')
    /\ getUint32 buffer 62
       = ToUint32 (nullish (match options with Some o => opt_frameTime o | None => None end)
                           0%float)
    /\ (let t := nullish (match options with Some o => opt_target o | None => None end)
                         (0, 0, 0)%float in
        slice buffer 70 12
        = layout_float32 (at0 t) ++ layout_float32 (at1 t) ++ layout_float32 (at2 t))
    /\ slice buffer 94 24
       = [20; 107; 20; 107; 20; 107; 20; 107; 20; 107; 20; 107;
          20; 107; 20; 107; 20; 107; 20; 107; 20; 107; 20; 107]
    /\ getUint32 buffer 118 = ToUint32 (Math_round (Three.fov (camera this)))
    /\ nth 122 buffer 0 = 0.
Proof.
  intros Hheld. eexists _, _. split; [now apply exportVmd_run|].
  set (f := frameOf options this).
  assert (Hf : well_typed_frame f) by reflexivity.
  assert (Hty : Forall well_typed_frame [f]) by now constructor.
  pose proof (layout_file_frame_at [f] 0 f Hty eq_refl) as Hat.
  change (frame_offset 0) with 62%nat in Hat.
  destruct (layout_frame_fields f Hf) as (H0 & _ & H8 & _ & H32 & H56 & H60).
  rewrite <- Hat in H0, H8, H32, H56, H60.
  rewrite <- slice_of_slice in H0, H8, H32, H56, H60 by lia.
  split; [exact (getUint32_slice _ _ _ H0)|].
  split; [exact H8|].
  split; [exact H32|].
  split; [exact (getUint32_slice _ _ _ H56)|exact (nth_slice_1 _ _ _ H60)].
Qed.

End ExportedFile.

Lemma exportVmd_file_fields_witness :
  fspyData Sample.converter_z10 <> None
  /\ exists buffer this',
      exportVmd (ext := Sample.env) None Sample.converter_z10 = (inr buffer, this')
      /\ getUint32 buffer 62 = 0
      /\ getUint32 buffer 118 = 29
      /\ nth 122 buffer 0 = 0.
Proof.
  assert (Hheld : fspyData Sample.converter_z10 <> None) by discriminate.
  split; [exact Hheld|].
  destruct (exportVmd_file_fields (ext := Sample.env) None Sample.converter_z10 Hheld)
    as (buffer & this' & Hrun & Ht & _ & _ & Hv & Ho).
  exists buffer, this'. repeat split; assumption.
Defined.

Lemma applyFSpyToCamera_success_state_witness :
  exists this',
    applyFSpyToCamera (ext := Sample.env) (Sample.fspy_with Sample.rows_z10) None
                      Sample.converter0
    = (inr tt, this')
    /\ Three.matrixAutoUpdate (camera this') = false
    /\ Three.position (camera this') = Three.mkVector3 0%float 0%float 10%float
    /\ Three.matrixWorld (camera this') = Three.matrix (camera this').
Proof.
  destruct (applyFSpyToCamera_success_state (ext := Sample.env)
              (Sample.fspy_with Sample.rows_z10) None Sample.converter0)
    as (this' & Hrun & _ & _ & _ & _ & _ & _ & _ & Hau & Hdec & _ & Hmw).
  - split; [reflexivity|]. repeat constructor.
  - intros r c Hr Hc.
    destruct r as [|[|[|[|r]]]]; try lia;
      destruct c as [|[|[|[|c]]]]; try lia; discriminate.
  - exists this'. repeat split; try assumption.
    now injection Hdec.
Defined.

Lemma applyFSpyToCamera_overwrites_witness :
  applyFSpyToCamera (ext := Sample.env) (Sample.fspy_with Sample.rows_z10) None
                    Sample.converter_z10
  = applyFSpyToCamera (ext := Sample.env) (Sample.fspy_with Sample.rows_z10) None
                      Sample.converter0.
Proof.
  refine (proj2 (applyFSpyToCamera_overwrites (ext := Sample.env)
                   (Sample.fspy_with Sample.rows_z10) None Sample.converter0 _ _)).
  - split; [reflexivity|]. repeat constructor.
  - intros r c Hr Hc.
    destruct r as [|[|[|[|r]]]]; try lia;
      destruct c as [|[|[|[|c]]]]; try lia; discriminate.
Defined.

Lemma applyFSpyToCamera_zero_image_height_witness :
  exists this',
    applyFSpyToCamera (ext := Sample.env) Edge.fspy_zero_height None Sample.converter0
    = (inr tt, this')
    /\ Three.aspect (camera this') = infinity.
Proof.
  apply (applyFSpyToCamera_zero_image_height (ext := Sample.env)).
  - split; [reflexivity|]. repeat constructor.
  - intros r c Hr Hc.
    destruct r as [|[|[|[|r]]]]; try lia;
      destruct c as [|[|[|[|c]]]]; try lia; discriminate.
  - reflexivity.
  - reflexivity.
Defined.


Lemma exportVmd_distance_never_positive_witness :
  exists frame this',
    exportVmd_cameraFrame (ext := Sample.env) None Sample.converter_z10 = (inr frame, this')
    /\ (0 <? distance frame)%float = false.
Proof.
  apply (exportVmd_distance_never_positive (ext := Sample.env)).
  - discriminate.
  - reflexivity.
  - reflexivity.
Defined.

(** Edge inputs of the writer, run. *)
Example writeCameraVmd_long_curve : writeCameraVmd [Edge.frame_long_curve] = inl RangeError.
Proof. vm_compute. reflexivity. Qed.

Example writeCameraVmd_no_curve :
  exists buffer,
    writeCameraVmd [Edge.frame_no_curve] = inr buffer
    /\ length buffer = 135%nat
    /\ slice buffer 94 5 = [45; 0; 0; 0; 1]
    /\ skipn 99 buffer = repeat 0 36.
Proof. eexists. split; [vm_compute; reflexivity|]. repeat split. Qed.

Example writeAscii_long_text :
  fst (writeAscii [0x41; 0xE9; 0x3042; 0x42] 3 (mkWriter (repeat 9 4) 1))
  = inr tt
  /\ uint8 (snd (writeAscii [0x41; 0xE9; 0x3042; 0x42] 3 (mkWriter (repeat 9 4) 1)))
     = [9; 0x41; 0x69; 0x42].
Proof. split; reflexivity. Qed.

Section FailedApply.

Context {ext : Collaborators}.

Lemma camera_before_matrix_pose (fspy : FspyData) (opts : option ApplyFSpyToCameraOptions)
      (c : Three.PerspectiveCamera) :
  worldPosition (camera_before_matrix fspy opts c) = worldPosition c
  /\ worldQuaternion (camera_before_matrix fspy opts c) = worldQuaternion c.
Proof.
  destruct c as [f a n fr pm [] mx mw p q s]; split; reflexivity.
Qed.

(** X18. After a failed applyFSpyToCamera, exportVmd does not throw: it
    returns a 135-byte buffer whose distance and rotation are those of the
    pose the camera had before the failed call, and whose view angle comes
    from the field of view of the rejected record. *)
Theorem exportVmd_after_failed_apply
        (fspy : FspyData) (opts : option ApplyFSpyToCameraOptions)
        (options : option ExportVmdOptions) (this : FspyVmdConverter) (e : Exception) :
  matrixFromFSpyRows (rows (cameraTransform fspy)) = inl e ->
  exists this1 frame this2 buffer,
    applyFSpyToCamera fspy opts this = (inl e, this1)
    /\ exportVmd_cameraFrame options this1 = (inr frame, this2)
    /\ exportVmd options this1 = (inr buffer, this2)
    /\ length buffer = 135%nat
    /\ (let t := nullish (match options with Some o => opt_target o | None => None end)
                         (0, 0, 0)%float in
        distance frame
        = (- Three.distanceTo (worldPosition (camera this))
                              (Three.mkVector3 (at0 t) (at1 t) (at2 t))
           * nullish (match options with
                      | Some o => opt_distanceMultiplier o
                      | None => None
                      end) 1
           * distanceBaseMultiplier (converterOptions this))%float)
    /\ (let euler := setFromQuaternion (worldQuaternion (camera this)) Three.YXZ in
        rotation frame = (Three.ex euler, Three.ey euler, (- Three.ez euler)%float))
    /\ viewAngle frame = Math_round (radToDeg (verticalFieldOfView fspy)).
Proof.
  intros Hm.
  pose proof (applyFSpyToCamera_run fspy opts this) as Hrun. rewrite Hm in Hrun.
  match type of Hrun with _ = (_, ?st) => set (this1 := st) in * end.
  assert (Hheld : fspyData this1 <> None) by discriminate.
  destruct (camera_before_matrix_pose fspy opts (camera this)) as [Hpos Hquat].
  exists this1, (frameOf options this1), (set_camera (updateWorldMatrix (camera this1)) this1),
    (layout_file [frameOf options this1]).
  split; [exact Hrun|].
  split; [now apply exportVmd_cameraFrame_run|].
  split; [now apply exportVmd_run|].
  split; [rewrite layout_file_length; [reflexivity|]; constructor; [reflexivity|constructor]|].
  cbn zeta. cbn [frameOf distance rotation viewAngle this1 camera converterOptions].
  rewrite Hpos, Hquat. repeat split.
Qed.

End FailedApply.

Lemma exportVmd_after_failed_apply_witness :
  exists this1 frame this2 buffer,
    applyFSpyToCamera (ext := Sample.env) (Sample.fspy_with Sample.rows_3) None
                      Sample.converter_z10
    = (inl ROWS_SIZE_ERROR, this1)
    /\ exportVmd_cameraFrame (ext := Sample.env) None this1 = (inr frame, this2)
    /\ exportVmd (ext := Sample.env) None this1 = (inr buffer, this2)
    /\ length buffer = 135%nat
    /\ distance frame = (-50)%float.
Proof.
  destruct (exportVmd_after_failed_apply (ext := Sample.env)
              (Sample.fspy_with Sample.rows_3) None None Sample.converter_z10
              ROWS_SIZE_ERROR eq_refl)
    as (this1 & frame & this2 & buffer & Hrun & Hframe & Hexp & Hlen & Hdist & _).
  exists this1, frame, this2, buffer. repeat split; assumption.
Defined.
